(** * ALX Polly: poll integrity and vote authorisation

    A shallow embedding of the server actions of
    [app/lib/actions/poll-actions.ts] ([createPoll], [submitVote],
    [deletePoll], [updatePoll]), of [login] from
    [app/lib/actions/auth-actions.ts], and of the client-side submit
    handlers that guard these actions with an anti-forgery token kept in
    [sessionStorage] (the poll creation form, the poll detail page and
    the login page).

    The persistence service and the identity service are external to the
    repository.  They are modelled as two tables and a journal of the
    requests sent to them ([World]), and an environment ([Env]) that
    fixes, for one call of an action, what the identity service answers
    and which requests the persistence service refuses. *)

From Stdlib Require Import Ascii String ZArith QArith Lia.
From stdpp Require Import base option list gmap strings fin_maps.
From stdpp Require Import sorting.

Local Open Scope string_scope.

(** ** JavaScript values used by the actions *)

Module Js.

(** Strings are sequences of code units below 256.  [is_white_space]
    is the part of the ECMAScript WhiteSpace and LineTerminator classes
    that lies in this range: TAB, LF, VT, FF, CR, SP and NBSP. *)
Definition is_white_space (c : ascii) : bool :=
  let n := nat_of_ascii c in
  ((9 <=? n) && (n <=? 13))%nat || (n =? 32)%nat || (n =? 160)%nat.

Fixpoint trimStart (s : string) : string :=
  match s with
  | EmptyString => EmptyString
  | String c r => if is_white_space c then trimStart r else s
  end.

Fixpoint trimEnd (s : string) : string :=
  match s with
  | EmptyString => EmptyString
  | String c r =>
      match trimEnd r with
      | EmptyString => if is_white_space c then EmptyString else String c EmptyString
      | r' => String c r'
      end
  end.

(** [String.prototype.trim] *)
Definition trim (s : string) : string := trimEnd (trimStart s).

(** A JavaScript number: a finite value, compared as the rational it
    denotes, or one of the three special values. *)
Inductive number :=
| Finite (q : Q)
| NaN
| PosInfinity
| NegInfinity.

Definition of_nat (n : nat) : number := Finite (inject_Z (Z.of_nat n)).

(** [a < b] *)
Definition lt (a b : number) : bool :=
  match a, b with
  | NaN, _ | _, NaN => false
  | Finite x, Finite y => negb (Qle_bool y x)
  | PosInfinity, _ => false
  | _, PosInfinity => true
  | NegInfinity, NegInfinity => false
  | NegInfinity, Finite _ => true
  | Finite _, NegInfinity => false
  end.

(** [a >= b] *)
Definition ge (a b : number) : bool :=
  match a, b with
  | NaN, _ | _, NaN => false
  | Finite x, Finite y => Qle_bool y x
  | PosInfinity, _ => true
  | _, NegInfinity => true
  | NegInfinity, _ => false
  | Finite _, PosInfinity => false
  end.

(** The values an argument declared [number] can hold at run time. *)
Inductive value :=
| VNumber (n : number)
| VString (s : string)
| VBoolean (b : bool)
| VNull
| VUndefined.

(** [typeof v === 'number'], with the number when it holds *)
Definition as_number (v : value) : option number :=
  match v with
  | VNumber n => Some n
  | _ => None
  end.

(** The character classes of
    [/^[0-9a-f]{8}-[0-9a-f]{4}-[0-9a-f]{4}-[0-9a-f]{4}-[0-9a-f]{12}$/i] *)
Definition is_hex (c : ascii) : bool :=
  let n := nat_of_ascii c in
  ((48 <=? n) && (n <=? 57) || (97 <=? n) && (n <=? 102) || (65 <=? n) && (n <=? 70))%nat.

Definition is_dash (c : ascii) : bool := (nat_of_ascii c =? 45)%nat.

(** [hex_group n s]: [s] starts with [n] hexadecimal digits; the rest. *)
Fixpoint hex_group (n : nat) (s : string) : option string :=
  match n with
  | O => Some s
  | S n' =>
      match s with
      | String c r => if is_hex c then hex_group n' r else None
      | EmptyString => None
      end
  end.

(** [hex_group n] followed by a dash. *)
Definition hex_group_dash (n : nat) (s : string) : option string :=
  match hex_group n s with
  | Some (String c r) => if is_dash c then Some r else None
  | _ => None
  end.

(** [uuidRegex.test s] *)
Definition uuidRegex_test (s : string) : bool :=
  match hex_group_dash 8 s with
  | Some s1 =>
      match hex_group_dash 4 s1 with
      | Some s2 =>
          match hex_group_dash 4 s2 with
          | Some s3 =>
              match hex_group_dash 4 s3 with
              | Some s4 =>
                  match hex_group 12 s4 with
                  | Some EmptyString => true
                  | _ => false
                  end
              | None => false
              end
          | None => false
          end
      | None => false
      end
  | None => false
  end.

(** [new Set(xs).size] *)
Definition set_size (xs : list string) : nat := length (remove_dups xs).

(** The value a function call completes with: it returns, or it throws
    (an [async] function then rejects). *)
Inductive completion (A : Type) :=
| Returns (a : A)
| Throws.
Arguments Returns {A} a.
Arguments Throws {A}.

(** An entry of a [FormData]: a string or a file. *)
Inductive FormDataEntryValue :=
| FString (s : string)
| FFile.

(** The fields of a [FormData] the code reads: [get] gives the first
    entry of a name or [null], [getAll] gives all of them. *)
Record FormData := {
  fd_question : option FormDataEntryValue;
  fd_options : list FormDataEntryValue;
  fd_csrfToken : option FormDataEntryValue
}.

End Js.

(** ** The persistence service and the identity service *)

Module Db.

(** A row of table [polls], without its key [id]. *)
Record PollRow := {
  poll_user_id : string;
  poll_question : string;
  poll_options : option (list string);
  poll_created_at : string
}.

(** A row of table [votes]. *)
Record VoteRow := {
  vote_poll_id : string;
  vote_user_id : option string;
  vote_option_index : Js.number;
  vote_created_at : string
}.

(** The requests the actions send, in the order they are sent. *)
Inductive Request :=
| AuthGetUser
| PollsSelectSingle (id : string)
| PollsInsert (row : PollRow)
| PollsUpdate (id user_id : string) (question : string) (options : list string)
| PollsDelete (id user_id : string)
| VotesSelectMaybeSingle (poll_id user_id : string)
| VotesSelectOptionIndex (poll_id : string)
| VotesInsert (row : VoteRow)
| VotesDelete (poll_id : string)
| AuthSignIn (email : string).

(** Table [polls] is keyed by its primary key [id]; table [votes] is a
    sequence of rows, as nothing in the code makes a pair
    ([poll_id], [user_id]) unique. *)
Record World := {
  polls : gmap string PollRow;
  votes : list VoteRow;
  journal : list Request
}.

(** What [supabase.auth.getUser()] completes with: the pair
    [{ data: { user }, error }] with [error] null, the same with [error]
    set, or an exception. *)
Inductive AuthReply :=
| AuthUser (user : option string)
| AuthError
| AuthThrows.

(** What [supabase.auth.signInWithPassword(..)] completes with. *)
Inductive SignInReply :=
| SignedIn
| SignInError
| SignInThrows.

(** The environment of one call.  A query of the persistence client
    resolves to [{ data, error }] and does not reject; the flag of a
    request says that it resolves with [error] set, and a request that
    fails changes no table. *)
Record Env := {
  auth : AuthReply;
  polls_select_fails : bool;
  polls_insert_fails : bool;
  polls_update_fails : bool;
  polls_delete_fails : bool;
  votes_select_fails : bool;
  votes_insert_fails : bool;
  votes_results_fails : bool;
  votes_delete_fails : bool;
  sign_in : SignInReply;
  new_poll_id : string;
  now : string
}.

Definition record (r : Request) (w : World) : World :=
  {| polls := polls w; votes := votes w; journal := journal w ++ [r] |}.

Definition set_polls (p : gmap string PollRow) (w : World) : World :=
  {| polls := p; votes := votes w; journal := journal w |}.

Definition set_votes (v : list VoteRow) (w : World) : World :=
  {| polls := polls w; votes := v; journal := journal w |}.

(** [supabase.auth.getUser()] *)
Definition getUser (env : Env) (w : World) : AuthReply * World :=
  (auth env, record AuthGetUser w).

(** [from("polls").select(..).eq("id", id).single()]: the row, or
    nothing when the request fails or no row has this key. *)
Definition polls_select_single (env : Env) (id : string) (w : World)
  : option PollRow * World :=
  let w' := record (PollsSelectSingle id) w in
  if polls_select_fails env then (None, w') else (polls w !! id, w').

(** [from("polls").insert([row]).select()]: the key of the new row, or
    nothing when the request fails or the key is taken. *)
Definition polls_insert (env : Env) (row : PollRow) (w : World)
  : option string * World :=
  let w' := record (PollsInsert row) w in
  if polls_insert_fails env then (None, w')
  else match polls w !! new_poll_id env with
       | Some _ => (None, w')
       | None => (Some (new_poll_id env), set_polls (<[new_poll_id env := row]> (polls w)) w')
       end.

(** [from("polls").update({question, options}).eq("id", id).eq("user_id", uid)]:
    [true] when the request succeeds. *)
Definition polls_update (env : Env) (id uid : string) (question : string)
  (options : list string) (w : World) : bool * World :=
  let w' := record (PollsUpdate id uid question options) w in
  if polls_update_fails env then (false, w')
  else match polls w !! id with
       | Some row =>
           if String.eqb (poll_user_id row) uid
           then (true, set_polls (<[id := {| poll_user_id := poll_user_id row;
                                              poll_question := question;
                                              poll_options := Some options;
                                              poll_created_at := poll_created_at row |}]>
                                     (polls w)) w')
           else (true, w')
       | None => (true, w')
       end.

(** [from("polls").delete().eq("id", id).eq("user_id", uid)] *)
Definition polls_delete (env : Env) (id uid : string) (w : World) : bool * World :=
  let w' := record (PollsDelete id uid) w in
  if polls_delete_fails env then (false, w')
  else match polls w !! id with
       | Some row =>
           if String.eqb (poll_user_id row) uid
           then (true, set_polls (delete id (polls w)) w')
           else (true, w')
       | None => (true, w')
       end.

Definition vote_of (poll_id user_id : string) (v : VoteRow) : bool :=
  String.eqb (vote_poll_id v) poll_id &&
  match vote_user_id v with
  | Some u => String.eqb u user_id
  | None => false
  end.

(** [from("votes").select("*").eq("poll_id", p).eq("user_id", u).maybeSingle()]:
    the row when exactly one matches; nothing when none matches, when
    several match, or when the request fails. *)
Definition votes_select_maybeSingle (env : Env) (poll_id user_id : string) (w : World)
  : option VoteRow * World :=
  let w' := record (VotesSelectMaybeSingle poll_id user_id) w in
  if votes_select_fails env then (None, w')
  else match List.filter (vote_of poll_id user_id) (votes w) with
       | [v] => (Some v, w')
       | _ => (None, w')
       end.

(** [from("votes").insert([row]).select()] *)
Definition votes_insert (env : Env) (row : VoteRow) (w : World) : bool * World :=
  let w' := record (VotesInsert row) w in
  if votes_insert_fails env then (false, w')
  else (true, set_votes (votes w ++ [row]) w').

(** [from("votes").select("option_index").eq("poll_id", p)] *)
Definition votes_select_option_index (env : Env) (poll_id : string) (w : World)
  : option (list Js.number) * World :=
  let w' := record (VotesSelectOptionIndex poll_id) w in
  if votes_results_fails env then (None, w')
  else (Some (map vote_option_index
                (List.filter (fun v => String.eqb (vote_poll_id v) poll_id) (votes w))), w').

(** [from("votes").delete().eq("poll_id", p)] *)
Definition votes_delete (env : Env) (poll_id : string) (w : World) : bool * World :=
  let w' := record (VotesDelete poll_id) w in
  if votes_delete_fails env then (false, w')
  else (true, set_votes (List.filter (fun v => negb (String.eqb (vote_poll_id v) poll_id)) (votes w)) w').

(** [supabase.auth.signInWithPassword({email, password})] *)
Definition signInWithPassword (env : Env) (email : string) (w : World)
  : SignInReply * World :=
  (sign_in env, record (AuthSignIn email) w).

End Db.

(** ** The server actions of [poll-actions.ts] *)

Module PollActions.
Import Js Db.

(** The objects the actions return. *)
Inductive Response :=
| Failure (error : string)          (* [{ error: "..." }] *)
| Created (pollId : option string)  (* [{ error: null, pollId }] *)
| Success                           (* [{ error: null, success: true }] *)
| Done.                             (* [{ error: null }] *)

(** The messages, under the names the design gives to the errors. *)
Definition EmptyQuestion := "Please provide a valid question".
Definition InsufficientOptions := "Please provide at least two options".
Definition DuplicateOptions := "All options must be unique".
Definition TooManyOptions := "Maximum of 20 options allowed".
Definition InvalidId := "Invalid poll ID".
Definition MalformedId := "Invalid poll ID format".
Definition InvalidOption := "Invalid option selected".
Definition NotFound := "Poll not found".
Definition DuplicateVote := "You have already voted on this poll".
Definition AuthenticationFailed := "Authentication failed".
Definition Unexpected := "An unexpected error occurred".
Definition ForbiddenDelete := "You do not have permission to delete this poll".
Definition ForbiddenUpdate := "You do not have permission to update this poll".

(** [formData.getAll("options").map(opt => typeof opt === 'string' ? opt.trim() : '').filter(Boolean)] *)
Definition sanitized_options (formData : FormData) : list string :=
  List.filter (fun opt => negb (String.eqb opt ""))
    (map (fun opt => match opt with FString s => trim s | FFile => "" end)
       (fd_options formData)).

(** [!s || s.trim() === ''] *)
Definition blank (s : string) : bool :=
  String.eqb s "" || String.eqb (trim s) "".

Definition createPoll (env : Env) (formData : FormData) (w : World)
  : completion Response * World :=
  match fd_question formData with
  | None => (Returns (Failure EmptyQuestion), w)
  | Some FFile => (Throws, w)
  | Some (FString question) =>
      if blank question then (Returns (Failure EmptyQuestion), w) else
      let options := sanitized_options formData in
      if (length options <? 2)%nat then (Returns (Failure InsufficientOptions), w) else
      if negb (set_size options =? length options)%nat
      then (Returns (Failure DuplicateOptions), w) else
      if (20 <? length options)%nat then (Returns (Failure TooManyOptions), w) else
      let '(reply, w1) := getUser env w in
      match reply with
      | AuthThrows => (Returns (Failure Unexpected), w1)
      | AuthError => (Returns (Failure AuthenticationFailed), w1)
      | AuthUser None => (Returns (Failure "You must be logged in to create a poll"), w1)
      | AuthUser (Some uid) =>
          let '(data, w2) :=
            polls_insert env {| poll_user_id := uid;
                                poll_question := trim question;
                                poll_options := Some (map trim options);
                                poll_created_at := now env |} w1 in
          match data with
          | None => (Returns (Failure "Failed to create poll"), w2)
          | Some id => (Returns (Created (Some id)), w2)
          end
      end
  end.

(** The keys of [voteCounts] are the numbers read back as property
    names. *)
Definition same_key (a b : number) : bool :=
  match a, b with
  | Finite x, Finite y => Qeq_bool x y
  | NaN, NaN | PosInfinity, PosInfinity | NegInfinity, NegInfinity => true
  | _, _ => false
  end.

(** [voteCounts[idx] = (voteCounts[idx] || 0) + 1] *)
Fixpoint bump (idx : number) (voteCounts : list (number * nat)) : list (number * nat) :=
  match voteCounts with
  | [] => [(idx, 1%nat)]
  | (k, c) :: rest =>
      if same_key k idx then (k, S c) :: rest else (k, c) :: bump idx rest
  end.

(** [results.forEach(vote => ...)] from [voteCounts = {}] *)
Definition count_votes (results : list number) : list (number * nat) :=
  fold_left (fun voteCounts idx => bump idx voteCounts) results [].

Definition submitVote (env : Env) (pollId : string) (optionIndex : value) (w : World)
  : Response * World :=
  if blank pollId then (Failure InvalidId, w) else
  match as_number optionIndex with
  | None => (Failure InvalidOption, w)
  | Some index =>
      if lt index (of_nat 0) then (Failure InvalidOption, w) else
      let sanitizedPollId := trim pollId in
      if negb (uuidRegex_test sanitizedPollId) then (Failure MalformedId, w) else
      let '(poll, w1) := polls_select_single env sanitizedPollId w in
      match poll with
      | None => (Failure NotFound, w1)
      | Some poll =>
          match poll_options poll with
          | None => (Failure InvalidOption, w1)
          | Some options =>
              if ge index (of_nat (length options)) then (Failure InvalidOption, w1) else
              let '(reply, w2) := getUser env w1 in
              match reply with
              | AuthThrows => (Failure Unexpected, w2)
              | AuthError => (Failure AuthenticationFailed, w2)
              | AuthUser user =>
                  let '(existingVote, w3) :=
                    match user with
                    | Some uid => votes_select_maybeSingle env sanitizedPollId uid w2
                    | None => (None, w2)
                    end in
                  match existingVote with
                  | Some _ => (Failure DuplicateVote, w3)
                  | None =>
                      let '(inserted, w4) :=
                        votes_insert env {| vote_poll_id := sanitizedPollId;
                                            vote_user_id := user;
                                            vote_option_index := index;
                                            vote_created_at := now env |} w3 in
                      if negb inserted then (Failure "Failed to submit vote", w4) else
                      let '(results, w5) := votes_select_option_index env sanitizedPollId w4 in
                      let voteCounts :=
                        match results with
                        | Some rows => count_votes rows
                        | None => []
                        end in
                      (Success, w5)
                  end
              end
          end
      end
  end.

Definition deletePoll (env : Env) (id : string) (w : World) : Response * World :=
  if blank id then (Failure InvalidId, w) else
  let sanitizedPollId := trim id in
  if negb (uuidRegex_test sanitizedPollId) then (Failure MalformedId, w) else
  let '(reply, w1) := getUser env w in
  match reply with
  | AuthThrows => (Failure Unexpected, w1)
  | AuthError | AuthUser None => (Failure "You must be logged in to delete a poll", w1)
  | AuthUser (Some uid) =>
      let '(poll, w2) := polls_select_single env sanitizedPollId w1 in
      match poll with
      | None => (Failure NotFound, w2)
      | Some poll =>
          if negb (String.eqb (poll_user_id poll) uid) then (Failure ForbiddenDelete, w2) else
          let '(votesDeleted, w3) := votes_delete env sanitizedPollId w2 in
          if negb votesDeleted then (Failure "Failed to delete poll votes", w3) else
          let '(deleted, w4) := polls_delete env sanitizedPollId uid w3 in
          if negb deleted then (Failure "Failed to delete poll", w4) else
          (Success, w4)
      end
  end.

Definition updatePoll (env : Env) (pollId : string) (formData : FormData) (w : World)
  : completion Response * World :=
  if blank pollId then (Returns (Failure InvalidId), w) else
  match fd_question formData with
  | None => (Returns (Failure EmptyQuestion), w)
  | Some FFile => (Throws, w)
  | Some (FString question) =>
      if blank question then (Returns (Failure EmptyQuestion), w) else
      let options := sanitized_options formData in
      if (length options <? 2)%nat then (Returns (Failure InsufficientOptions), w) else
      if negb (set_size options =? length options)%nat
      then (Returns (Failure DuplicateOptions), w) else
      let '(reply, w1) := getUser env w in
      match reply with
      | AuthThrows => (Returns (Failure Unexpected), w1)
      | AuthError => (Returns (Failure AuthenticationFailed), w1)
      | AuthUser None => (Returns (Failure "You must be logged in to update a poll"), w1)
      | AuthUser (Some uid) =>
          let '(poll, w2) := polls_select_single env pollId w1 in
          match poll with
          | None => (Returns (Failure NotFound), w2)
          | Some poll =>
              if negb (String.eqb (poll_user_id poll) uid)
              then (Returns (Failure ForbiddenUpdate), w2) else
              let '(updated, w3) :=
                polls_update env pollId uid (trim question) (map trim options) w2 in
              if negb updated then (Returns (Failure "Failed to update poll"), w3) else
              (Returns Done, w3)
          end
      end
  end.

End PollActions.

(** ** The server action [login] of [auth-actions.ts] *)

Module AuthActions.
Import Js Db PollActions.

(** [String.prototype.toLowerCase] on code units below 256. *)
Definition lower (c : ascii) : ascii :=
  let n := nat_of_ascii c in
  if ((65 <=? n) && (n <=? 90) || (192 <=? n) && (n <=? 214) || (216 <=? n) && (n <=? 222))%nat
  then ascii_of_nat (n + 32)
  else c.

Fixpoint toLowerCase (s : string) : string :=
  match s with
  | EmptyString => EmptyString
  | String c r => String (lower c) (toLowerCase r)
  end.

Definition login (env : Env) (email password : string) (w : World) : Response * World :=
  if String.eqb email "" || String.eqb password ""
  then (Failure "Email and password are required", w) else
  let '(reply, w1) := signInWithPassword env (toLowerCase (trim email)) w in
  match reply with
  | SignInThrows => (Failure Unexpected, w1)
  | SignInError => (Failure "Invalid login credentials", w1)
  | SignedIn => (Done, w1)
  end.

End AuthActions.

(** ** The submit handlers and their anti-forgery token *)

Module Client.
Import Js Db PollActions.

(** [sessionStorage]: [getItem] is the lookup, [null] when the key is
    absent. *)
Abbreviation Storage := (gmap string string).

(** [formCsrfToken === storedToken], the stored token being a string or
    [null] *)
Definition same_token (presented : option FormDataEntryValue) (stored : option string) : bool :=
  match presented, stored with
  | None, None => true
  | Some (FString a), Some b => String.eqb a b
  | _, _ => false
  end.

(** [sessionStorage.removeItem(key); sessionStorage.setItem(key, newToken)] *)
Definition rotate (key newToken : string) (storage : Storage) : Storage :=
  <[key := newToken]> (delete key storage).

(** [res?.error] when it is truthy *)
Definition error_of (res : Response) : option string :=
  match res with
  | Failure e => if String.eqb e "" then None else Some e
  | _ => None
  end.

Definition SecurityValidationFailed :=
  "Security validation failed. Please refresh the page and try again.".

(** *** [PollCreateForm] *)

(** The state the form shows after a submission. *)
Record CreateView := {
  create_error : option string;
  create_success : bool
}.

(** [formOptions.filter(opt => opt && opt.trim() !== '')]; [trim] is not
    a method of a file. *)
Fixpoint validOptions (formOptions : list FormDataEntryValue) : completion (list string) :=
  match formOptions with
  | [] => Returns []
  | FFile :: _ => Throws
  | FString opt :: rest =>
      match validOptions rest with
      | Throws => Throws
      | Returns valid => Returns (if blank opt then valid else opt :: valid)
      end
  end.

Definition validateForm (formData : FormData) : completion (option string) :=
  match fd_question formData with
  | None => Returns (Some "Please provide a valid question")
  | Some FFile => Throws
  | Some (FString question) =>
      if blank question then Returns (Some "Please provide a valid question") else
      match validOptions (fd_options formData) with
      | Throws => Throws
      | Returns valid =>
          if (length valid <? 2)%nat
          then Returns (Some "Please provide at least two options") else
          if negb (set_size (map trim valid) =? length valid)%nat
          then Returns (Some "All options must be unique") else
          Returns None
      end
  end.

(** The [action] of the form; [newToken] is the value
    [Math.random().toString(36).substring(2, 15)] would give. *)
Definition createAction (env : Env) (newToken : string) (formData : FormData)
  (storage : Storage) (w : World) : completion CreateView * Storage * World :=
  let storedToken := storage !! "pollCsrfToken" in
  if negb (same_token (fd_csrfToken formData) storedToken)
  then (Returns {| create_error := Some SecurityValidationFailed;
                   create_success := false |}, storage, w) else
  match validateForm formData with
  | Throws => (Throws, storage, w)
  | Returns (Some validationError) =>
      (Returns {| create_error := Some validationError; create_success := false |},
       storage, w)
  | Returns None =>
      let '(res, w1) := createPoll env formData w in
      match res with
      | Throws =>
          (Returns {| create_error := Some "An unexpected error occurred. Please try again.";
                      create_success := false |}, storage, w1)
      | Returns res =>
          match error_of res with
          | Some e =>
              (Returns {| create_error := Some e; create_success := false |}, storage, w1)
          | None =>
              (Returns {| create_error := None; create_success := true |},
               rotate "pollCsrfToken" newToken storage, w1)
          end
      end
  end.

(** *** [PollDetailPage] *)

Record VoteView := {
  vote_error : option string;
  vote_hasVoted : bool
}.

(** [handleVote]; [csrfToken] is the token the component holds in its
    state, [selectedOption] the [id] of the option clicked or [null]. *)
Definition handleVote (env : Env) (newToken : string) (params_id : string)
  (selectedOption : option string) (csrfToken : string)
  (storage : Storage) (w : World) : VoteView * Storage * World :=
  match selectedOption with
  | None => ({| vote_error := Some "Please select an option"; vote_hasVoted := false |},
             storage, w)
  | Some selected =>
      if String.eqb selected ""
      then ({| vote_error := Some "Please select an option"; vote_hasVoted := false |},
            storage, w) else
      let storedToken := storage !! "voteCsrfToken" in
      if negb (same_token (Some (FString csrfToken)) storedToken)
      then ({| vote_error := Some SecurityValidationFailed; vote_hasVoted := false |},
            storage, w) else
      let '(result, w1) := submitVote env params_id (VString selected) w in
      match error_of result with
      | Some e => ({| vote_error := Some e; vote_hasVoted := false |}, storage, w1)
      | None => ({| vote_error := None; vote_hasVoted := true |},
                 rotate "voteCsrfToken" newToken storage, w1)
      end
  end.

(** *** [LoginPage] *)

Record LoginForm := {
  lf_email : option FormDataEntryValue;
  lf_password : option FormDataEntryValue;
  lf_csrfToken : option FormDataEntryValue
}.

Record LoginView := {
  login_error : option string;
  login_loading : bool;
  login_redirected : bool
}.

Definition is_at (c : ascii) : bool := (nat_of_ascii c =? 64)%nat.
Definition is_dot (c : ascii) : bool := (nat_of_ascii c =? 46)%nat.

(** The class [[^\s@]] *)
Definition plain (c : ascii) : bool := negb (is_white_space c || is_at c).

Fixpoint all_plain (s : string) : bool :=
  match s with
  | EmptyString => true
  | String c r => plain c && all_plain r
  end.

(** The text before the first [@] and the text after it. *)
Fixpoint split_at (s : string) : option (string * string) :=
  match s with
  | EmptyString => None
  | String c r =>
      if is_at c then Some (EmptyString, r)
      else match split_at r with
           | Some (a, b) => Some (String c a, b)
           | None => None
           end
  end.

(** A dot with a character after it. *)
Fixpoint dot_before_end (s : string) : bool :=
  match s with
  | EmptyString => false
  | String c r =>
      match r with
      | EmptyString => false
      | String _ _ => is_dot c || dot_before_end r
      end
  end.

(** [/^[^\s@]+@[^\s@]+\.[^\s@]+$/.test(s)] *)
Definition emailRegex_test (s : string) : bool :=
  match split_at s with
  | Some (String c a, String d b) =>
      all_plain (String c a) && all_plain (String d b) && dot_before_end b
  | _ => false
  end.

Definition handleSubmit (env : Env) (newToken : string) (form : LoginForm)
  (storage : Storage) (w : World) : completion LoginView * Storage * World :=
  let shown e := Returns {| login_error := Some e; login_loading := false;
                            login_redirected := false |} in
  match lf_email form with
  | Some (FString email) =>
      if negb (emailRegex_test email)
      then (shown "Please enter a valid email address", storage, w) else
      match lf_password form with
      | None => (shown "Password is required", storage, w)
      | Some FFile => (Throws, storage, w)
      | Some (FString password) =>
          if blank password then (shown "Password is required", storage, w) else
          let storedToken := storage !! "csrfToken" in
          if negb (same_token (lf_csrfToken form) storedToken)
          then (shown SecurityValidationFailed, storage, w) else
          let '(result, w1) := AuthActions.login env email password w in
          match error_of result with
          | Some e => (shown e, storage, w1)
          | None =>
              (Returns {| login_error := None; login_loading := true;
                          login_redirected := true |},
               rotate "csrfToken" newToken storage, w1)
          end
      end
  | _ => (shown "Please enter a valid email address", storage, w)
  end.

End Client.

(** ** Vocabulary of the statements *)

Module Props.
Import Js Db PollActions.

(** An action is refused: it returns an object whose [error] is a
    message, or it throws. *)
Definition refused (c : completion Response) : Prop :=
  c = Throws \/ exists e, c = Returns (Failure e).

(** The input checks of [updatePoll], taken together. *)
Definition update_input_ok (pollId : string) (formData : FormData) : bool :=
  negb (blank pollId) &&
  match fd_question formData with
  | Some (FString question) =>
      negb (blank question) &&
      negb (length (sanitized_options formData) <? 2)%nat &&
      (set_size (sanitized_options formData) =? length (sanitized_options formData))%nat
  | _ => false
  end.

(** The input checks of [deletePoll], taken together. *)
Definition delete_input_ok (id : string) : bool :=
  negb (blank id) && uuidRegex_test (trim id).

(** The votes of table [votes] cast by [user_id] on [poll_id]. *)
Definition votes_of (poll_id user_id : string) (w : World) : list VoteRow :=
  List.filter (vote_of poll_id user_id) (votes w).


(** [optionIndex] is a number that passes the two comparisons of
    [submitVote] against the options of the poll at the sanitised id. *)
Definition passes_range_check (pollId : string) (optionIndex : value) (w : World) : Prop :=
  exists index poll options,
    optionIndex = VNumber index /\
    polls w !! trim pollId = Some poll /\
    poll_options poll = Some options /\
    lt index (of_nat 0) = false /\
    ge index (of_nat (length options)) = false.

(** The environment in which the fetch of the results after the insert
    fails or not, all else being equal. *)
Definition with_results_fails (b : bool) (env : Env) : Env :=
  {| auth := auth env;
     polls_select_fails := polls_select_fails env;
     polls_insert_fails := polls_insert_fails env;
     polls_update_fails := polls_update_fails env;
     polls_delete_fails := polls_delete_fails env;
     votes_select_fails := votes_select_fails env;
     votes_insert_fails := votes_insert_fails env;
     votes_results_fails := b;
     votes_delete_fails := votes_delete_fails env;
     sign_in := sign_in env;
     new_poll_id := new_poll_id env;
     now := now env |}.

(** The invariant of table [votes]: at most one vote of a voter on a
    poll. *)
Definition one_vote_each (w : World) : Prop :=
  forall poll_id user_id, (length (votes_of poll_id user_id w) <= 1)%nat.

(** What a handler leaves behind: the view, the storage, the world. *)
Definition view_of {V : Type} (r : V * Client.Storage * World) : V := fst (fst r).
Definition storage_of {V : Type} (r : V * Client.Storage * World) : Client.Storage :=
  snd (fst r).

(** The submission went through: the form shows its success. *)
Definition create_succeeded (c : completion Client.CreateView) : bool :=
  match c with
  | Returns v => Client.create_success v
  | Throws => false
  end.

Definition login_succeeded (c : completion Client.LoginView) : bool :=
  match c with
  | Returns v => Client.login_redirected v
  | Throws => false
  end.

(** The shape the design calls the canonical one: five groups of 8, 4,
    4, 4 and 12 hexadecimal digits of either case, with a dash between
    two groups. *)
Definition hex_digits (s : string) : bool :=
  forallb is_hex (list_ascii_of_string s).

Definition canonical_uuid (s : string) : Prop :=
  exists a b c d e : string,
    s = a ++ "-" ++ b ++ "-" ++ c ++ "-" ++ d ++ "-" ++ e /\
    String.length a = 8%nat /\ String.length b = 4%nat /\ String.length c = 4%nat /\
    String.length d = 4%nat /\ String.length e = 12%nat /\
    hex_digits a = true /\ hex_digits b = true /\ hex_digits c = true /\
    hex_digits d = true /\ hex_digits e = true.

End Props.

(** ** Sample data *)

Module Sample.
Import Js Db PollActions.

Definition poll_id := "123e4567-e89b-12d3-a456-426614174000".

Definition best_color : PollRow :=
  {| poll_user_id := "bob";
     poll_question := "Best color?";
     poll_options := Some ["Red"; "Blue"];
     poll_created_at := "2024-01-01T00:00:00.000Z" |}.

(** One poll, owned by bob, and no vote. *)
Definition world : World :=
  {| polls := {[ poll_id := best_color ]}; votes := []; journal := [] |}.

(** The caller is [user]; every request succeeds. *)
Definition env_of (user : option string) : Env :=
  {| auth := AuthUser user;
     polls_select_fails := false;
     polls_insert_fails := false;
     polls_update_fails := false;
     polls_delete_fails := false;
     votes_select_fails := false;
     votes_insert_fails := false;
     votes_results_fails := false;
     votes_delete_fails := false;
     sign_in := SignedIn;
     new_poll_id := "9b2d7c3e-0f4a-4e5b-8c6d-1a2b3c4d5e6f";
     now := "2024-01-02T00:00:00.000Z" |}.

(** No poll and no vote. *)
Definition empty_world : World :=
  {| polls := ∅; votes := []; journal := [] |}.

(** Bob's poll with one vote of alice and one vote without voter. *)
Definition voted_world : World :=
  {| polls := {[ poll_id := best_color ]};
     votes := [ {| vote_poll_id := poll_id; vote_user_id := Some "alice";
                   vote_option_index := of_nat 0;
                   vote_created_at := "2024-01-01T10:00:00.000Z" |};
                {| vote_poll_id := poll_id; vote_user_id := None;
                   vote_option_index := of_nat 1;
                   vote_created_at := "2024-01-01T11:00:00.000Z" |} ];
     journal := [] |}.

(** The environment of [env_of] in which the deletion of votes fails. *)
Definition env_votes_delete_fails (user : option string) : Env :=
  {| auth := AuthUser user;
     polls_select_fails := false;
     polls_insert_fails := false;
     polls_update_fails := false;
     polls_delete_fails := false;
     votes_select_fails := false;
     votes_insert_fails := false;
     votes_results_fails := false;
     votes_delete_fails := true;
     sign_in := SignedIn;
     new_poll_id := "9b2d7c3e-0f4a-4e5b-8c6d-1a2b3c4d5e6f";
     now := "2024-01-02T00:00:00.000Z" |}.

(** Twenty-one options, all different. *)
Definition letters : list string :=
  ["a"; "b"; "c"; "d"; "e"; "f"; "g"; "h"; "i"; "j"; "k";
   "l"; "m"; "n"; "o"; "p"; "q"; "r"; "s"; "t"; "u"].

(** A session storage that holds a token for the poll creation form. *)
Definition storage : gmap string string := {[ "pollCsrfToken" := "k3x9q2m7p1a" ]}.

(** A form submitted with a token. *)
Definition form_with_token (question : string) (options : list string) (token : string)
  : FormData :=
  {| fd_question := Some (FString question);
     fd_options := map FString options;
     fd_csrfToken := Some (FString token) |}.

Definition form (question : string) (options : list string) : FormData :=
  {| fd_question := Some (FString question);
     fd_options := map FString options;
     fd_csrfToken := None |}.

End Sample.

(** ** The read actions of [poll-actions.ts] *)

Module PollReads.
Import Js Db PollActions.

(** The two reads write to no table; they are given as functions of the
    world.  [message] is the text of the error the persistence service
    reports when the request fails. *)

(** [{ poll, error }] *)
Record PollReply := {
  reply_poll : option (string * PollRow);
  reply_error : option string
}.

Definition getPollById (env : Env) (message : string) (id : string) (w : World)
  : PollReply :=
  match fst (polls_select_single env id w) with
  | None => {| reply_poll := None; reply_error := Some message |}
  | Some row => {| reply_poll := Some (id, row); reply_error := None |}
  end.

(** [{ polls, error }] *)
Record PollsReply := {
  reply_polls : list (string * PollRow);
  reply_polls_error : option string
}.

(** [order("created_at", { ascending: false })]: [a] may stand before
    [b].  [created_at] holds the ISO text [createPoll] writes, whose
    order as text is the order in time. *)
Definition newer (a b : string * PollRow) : Prop :=
  String.leb (poll_created_at (snd b)) (poll_created_at (snd a)) = true.

#[global] Instance newer_dec : RelDecision newer.
Proof. intros a b. unfold newer. apply _. Defined.

(** [from("polls").select("*").eq("user_id", uid).order("created_at", ..)] *)
Definition polls_select_by_user (env : Env) (user_id : string) (w : World)
  : option (list (string * PollRow)) :=
  if polls_select_fails env then None
  else Some (merge_sort newer
               (List.filter (fun p => String.eqb (poll_user_id (snd p)) user_id)
                  (map_to_list (polls w)))).

(** [getUserPolls] reads [data.user] and does not look at the error of
    the identity service, with which [user] is [null]; it has no
    [try]. *)
Definition getUserPolls (env : Env) (message : string) (w : World)
  : completion PollsReply :=
  match fst (getUser env w) with
  | AuthThrows => Throws
  | AuthError | AuthUser None =>
      Returns {| reply_polls := []; reply_polls_error := Some "Not authenticated" |}
  | AuthUser (Some uid) =>
      match polls_select_by_user env uid w with
      | None => Returns {| reply_polls := []; reply_polls_error := Some message |}
      | Some data => Returns {| reply_polls := data; reply_polls_error := None |}
      end
  end.

End PollReads.

(** ** The server action [register] of [auth-actions.ts] *)

Module Registration.
Import Js Db PollActions AuthActions.

(** What [supabase.auth.signUp(..)] completes with. *)
Inductive SignUpReply :=
| SignedUp
| SignUpError (message : string)
| SignUpThrows.

(** The argument of [signUp]. *)
Record SignUpRequest := {
  su_email : string;
  su_password : string;
  su_name : string
}.

(** [s.includes(needle)] *)
Fixpoint includes (s needle : string) : bool :=
  String.prefix needle s ||
  match s with
  | EmptyString => false
  | String _ rest => includes rest needle
  end.

Definition commonPasswords : list string := ["password"; "12345678"; "qwerty123"].

(** The answer, and the request sent to the identity service if one
    is. *)
Definition register (reply : SignUpReply) (email password name : string)
  : Response * option SignUpRequest :=
  if String.eqb email "" || String.eqb password "" || String.eqb name ""
  then (Failure "All fields are required", None) else
  if (String.length password <? 8)%nat
  then (Failure "Password must be at least 8 characters long", None) else
  if existsb (String.eqb (toLowerCase password)) commonPasswords
  then (Failure "Please use a stronger password", None) else
  let request := {| su_email := toLowerCase (trim email);
                    su_password := password;
                    su_name := trim name |} in
  match reply with
  | SignUpThrows => (Failure Unexpected, Some request)
  | SignUpError message =>
      if includes message "already registered"
      then (Failure "This email is already registered", Some request)
      else (Failure "Registration failed. Please try again.", Some request)
  | SignedUp => (Done, Some request)
  end.

End Registration.

(** ** The option fields of [PollCreateForm] *)

Module OptionFields.

(** [useState(["", ""])] *)
Definition initial : list string := [""; ""].

(** [opts.map((opt, i) => (i === idx ? value : opt))] *)
Definition handleOptionChange (idx : nat) (value : string) (opts : list string)
  : list string :=
  imap (fun i opt => if (i =? idx)%nat then value else opt) opts.

(** [[...opts, ""]] *)
Definition addOption (opts : list string) : list string := (opts ++ [""])%list.

(** [opts.filter((_, i) => keep(i))], the first element having index [i] *)
Fixpoint filter_index (keep : nat -> bool) (i : nat) (opts : list string) : list string :=
  match opts with
  | [] => []
  | opt :: rest =>
      if keep i then opt :: filter_index keep (S i) rest
      else filter_index keep (S i) rest
  end.

Definition removeOption (idx : nat) (options : list string) : list string :=
  if (2 <? length options)%nat
  then filter_index (fun i => negb (i =? idx)%nat) 0 options
  else options.

(** What the user does to the fields. *)
Inductive Edit :=
| Change (idx : nat) (value : string)
| Add
| Remove (idx : nat).

Definition edit (options : list string) (e : Edit) : list string :=
  match e with
  | Change idx value => handleOptionChange idx value options
  | Add => addOption options
  | Remove idx => removeOption idx options
  end.

Definition edits (es : list Edit) : list string := fold_left edit es initial.

End OptionFields.

(** ** Sequences of calls *)

Module Runs.
Import Js Db PollActions.

(** One call of a writing action, with the environment it runs in. *)
Inductive Call :=
| Create (env : Env) (formData : FormData)
| Vote (env : Env) (pollId : string) (optionIndex : value)
| Delete (env : Env) (id : string)
| Update (env : Env) (pollId : string) (formData : FormData).

Definition call_env (c : Call) : Env :=
  match c with
  | Create env _ | Vote env _ _ | Delete env _ | Update env _ _ => env
  end.

(** The world a call leaves. *)
Definition step (w : World) (c : Call) : World :=
  match c with
  | Create env formData => snd (createPoll env formData w)
  | Vote env pollId optionIndex => snd (submitVote env pollId optionIndex w)
  | Delete env id => snd (deletePoll env id w)
  | Update env pollId formData => snd (updatePoll env pollId formData w)
  end.

Definition run (calls : list Call) (w : World) : World := fold_left step calls w.

End Runs.

(** ** Vocabulary of the further statements *)

Module Terms.
Import Js Db PollActions Client.

(** The input checks of [createPoll], taken together. *)
Definition create_input_ok (formData : FormData) : bool :=
  match fd_question formData with
  | Some (FString question) =>
      negb (blank question) &&
      negb (length (sanitized_options formData) <? 2)%nat &&
      (set_size (sanitized_options formData) =? length (sanitized_options formData))%nat &&
      negb (20 <? length (sanitized_options formData))%nat
  | _ => false
  end.

(** A string that [trim] leaves as it is and that is not empty. *)
Definition trimmed (s : string) : Prop := s <> "" /\ trim s = s.

(** A row of [polls] as the design wants it: a question, and between
    two and twenty options, all different, none empty or padded. *)
Definition well_formed (row : PollRow) : Prop :=
  trimmed (poll_question row) /\
  exists options,
    poll_options row = Some options /\
    (2 <= length options <= 20)%nat /\
    NoDup options /\
    Forall trimmed options.

(** Every vote is a vote on a poll of table [polls]. *)
Definition no_orphan_votes (w : World) : Prop :=
  forall v, v ∈ votes w -> is_Some (polls w !! vote_poll_id v).

(** The count [voteCounts] holds for a key. *)
Definition count_of (idx : number) (voteCounts : list (number * nat)) : nat :=
  match List.find (fun entry => same_key (fst entry) idx) voteCounts with
  | Some (_, c) => c
  | None => 0
  end.

(** No whitespace and no [@]. *)
Definition plain_text (s : string) : Prop :=
  s <> "" /\ Forall (fun c => plain c = true) (list_ascii_of_string s).

(** The shape the e-mail pattern describes: [local@domain.tld]. *)
Definition email_shape (s : string) : Prop :=
  exists a b c : string,
    s = a ++ "@" ++ b ++ "." ++ c /\ plain_text a /\ plain_text b /\ plain_text c.

(** No entry of the form is a file. *)
Definition text_only (formData : FormData) : Prop :=
  Forall (fun opt => opt <> FFile) (fd_options formData).



(** The call is not made by [user]. *)
Definition not_by (user : string) (c : Runs.Call) : Prop :=
  auth (Runs.call_env c) <> AuthUser (Some user).

(** If the call is a vote, the lookup of the caller's earlier vote
    succeeds. *)
Definition lookup_succeeds (c : Runs.Call) : Prop :=
  match c with
  | Runs.Vote env _ _ => votes_select_fails env = false
  | _ => True
  end.

End Terms.

(** ** Further sample data *)

Module Faults.
Import Js Db PollActions.


(** The caller is [user]; the lookup of the caller's earlier vote fails,
    every other request succeeds. *)
Definition env_lookup_fails (user : option string) : Env :=
  {| auth := AuthUser user;
     polls_select_fails := false;
     polls_insert_fails := false;
     polls_update_fails := false;
     polls_delete_fails := false;
     votes_select_fails := true;
     votes_insert_fails := false;
     votes_results_fails := false;
     votes_delete_fails := false;
     sign_in := SignedIn;
     new_poll_id := "9b2d7c3e-0f4a-4e5b-8c6d-1a2b3c4d5e6f";
     now := "2024-01-03T00:00:00.000Z" |}.

Definition best_letter : PollRow :=
  {| poll_user_id := "bob";
     poll_question := "Best letter?";
     poll_options := Some ["a"; "b"; "c"];
     poll_created_at := "2024-02-01T00:00:00.000Z" |}.

Definition best_day : PollRow :=
  {| poll_user_id := "alice";
     poll_question := "Best day?";
     poll_options := Some ["Saturday"; "Sunday"];
     poll_created_at := "2024-01-15T00:00:00.000Z" |}.

(** Two polls of bob and one of alice. *)
Definition three_polls : World :=
  {| polls := {[ Sample.poll_id := Sample.best_color;
                 "0a1b2c3d-4e5f-4a6b-8c7d-9e0f1a2b3c4d" := best_letter;
                 "5f6e7d8c-9b0a-4c1d-8e2f-3a4b5c6d7e8f" := best_day ]};
     votes := [];
     journal := [] |}.

(** A session storage with a token for the login page and one for the
    vote page. *)
Definition storage : gmap string string :=
  {[ "csrfToken" := "k3x9q2m7p1a"; "voteCsrfToken" := "k3x9q2m7p1a" ]}.

End Faults.

(** ** Proof steps *)

Module Steps.
Import Js Db PollActions.

(** Case analysis on the innermost scrutinee of the goal. *)
Ltac split_innermost :=
  match goal with
  | |- context [match ?x with _ => _ end] =>
      lazymatch x with
      | context [match _ with _ => _ end] => fail
      | _ => destruct x eqn:?
      end
  end.

(** Every path of [submitVote]. *)
Ltac run_submitVote :=
  unfold submitVote, polls_select_single, getUser, votes_select_maybeSingle,
    votes_insert, votes_select_option_index;
  repeat (split_innermost; cbn [fst snd negb as_number]).

End Steps.

(** ** Properties *)

Module Ownership.
Import Js Db PollActions Props.

Lemma eqb_owner_false (a b : string) : a <> b -> String.eqb a b = false.
Proof. intros H. apply String.eqb_neq. exact H. Qed.

(** [deletePoll] by a caller who is authenticated and is not the owner
    of the poll at the sanitised id. *)
Lemma deletePoll_non_owner (env : Env) (uid id : string) (poll : PollRow) (w : World) :
  auth env = AuthUser (Some uid) ->
  polls w !! trim id = Some poll ->
  poll_user_id poll <> uid ->
  exists e,
    fst (deletePoll env id w) = Failure e /\
    polls (snd (deletePoll env id w)) = polls w /\
    votes (snd (deletePoll env id w)) = votes w /\
    (delete_input_ok id = true -> e = NotFound \/ e = ForbiddenDelete).
Proof.
  intros Hauth Hpoll Hown.
  unfold deletePoll, delete_input_ok.
  destruct (blank id); [eexists; simpl; intuition discriminate |].
  destruct (uuidRegex_test (trim id)); simpl;
    [| eexists; simpl; intuition discriminate].
  rewrite Hauth. unfold polls_select_single.
  destruct (polls_select_fails env); simpl.
  - eexists; intuition eauto.
  - rewrite Hpoll. rewrite (eqb_owner_false _ _ Hown). simpl.
    eexists; intuition eauto.
Qed.

Lemma updatePoll_non_owner (env : Env) (uid pollId : string) (formData : FormData)
  (poll : PollRow) (w : World) :
  auth env = AuthUser (Some uid) ->
  polls w !! pollId = Some poll ->
  poll_user_id poll <> uid ->
  refused (fst (updatePoll env pollId formData w)) /\
  polls (snd (updatePoll env pollId formData w)) = polls w /\
  votes (snd (updatePoll env pollId formData w)) = votes w /\
  (update_input_ok pollId formData = true ->
   fst (updatePoll env pollId formData w) = Returns (Failure NotFound) \/
   fst (updatePoll env pollId formData w) = Returns (Failure ForbiddenUpdate)).
Proof.
  intros Hauth Hpoll Hown.
  unfold updatePoll, update_input_ok, refused.
  destruct (blank pollId); simpl; [intuition (eauto || discriminate) |].
  destruct (fd_question formData) as [[question|]|]; simpl;
    [| intuition (eauto || discriminate) ..].
  destruct (blank question); simpl; [intuition (eauto || discriminate) |].
  destruct (length (sanitized_options formData) <? 2)%nat; simpl;
    [intuition (eauto || discriminate) |].
  destruct (set_size (sanitized_options formData) =? length (sanitized_options formData))%nat;
    simpl; [| intuition (eauto || discriminate)].
  rewrite Hauth. unfold polls_select_single.
  destruct (polls_select_fails env); simpl.
  - intuition eauto.
  - rewrite Hpoll. rewrite (eqb_owner_false _ _ Hown). simpl. intuition eauto.
Qed.

End Ownership.

Module OwnershipClaim.
Import Js Db PollActions Props Ownership.

(** C1.  When the caller of [deletePoll] or [updatePoll] is
    authenticated as [uid] and the poll the call targets belongs to
    somebody else, the call is refused and tables [polls] and [votes]
    are what they were; when the request passes the input checks of the
    action, the error is "Poll not found" (the lookup failed) or "You do
    not have permission to ... this poll". *)
Theorem non_owner_is_refused_and_changes_nothing
  (env : Env) (uid id pollId : string) (formData : FormData)
  (deleted updated : PollRow) (w : World) :
  auth env = AuthUser (Some uid) ->
  polls w !! trim id = Some deleted -> poll_user_id deleted <> uid ->
  polls w !! pollId = Some updated -> poll_user_id updated <> uid ->
  (exists e,
      fst (deletePoll env id w) = Failure e /\
      polls (snd (deletePoll env id w)) = polls w /\
      votes (snd (deletePoll env id w)) = votes w /\
      (delete_input_ok id = true -> e = NotFound \/ e = ForbiddenDelete)) /\
  (refused (fst (updatePoll env pollId formData w)) /\
   polls (snd (updatePoll env pollId formData w)) = polls w /\
   votes (snd (updatePoll env pollId formData w)) = votes w /\
   (update_input_ok pollId formData = true ->
    fst (updatePoll env pollId formData w) = Returns (Failure NotFound) \/
    fst (updatePoll env pollId formData w) = Returns (Failure ForbiddenUpdate))).
Proof.
  intros Hauth Hd Hdo Hu Huo. split.
  - exact (deletePoll_non_owner env uid id deleted w Hauth Hd Hdo).
  - exact (updatePoll_non_owner env uid pollId formData updated w Hauth Hu Huo).
Qed.

(** Alice calls both actions on bob's poll. *)
Lemma non_owner_is_refused_witness :
  fst (deletePoll (Sample.env_of (Some "alice")) Sample.poll_id Sample.world)
    = Failure ForbiddenDelete /\
  fst (updatePoll (Sample.env_of (Some "alice")) Sample.poll_id
         (Sample.form "Best colour?" ["Red"; "Green"]) Sample.world)
    = Returns (Failure ForbiddenUpdate) /\
  polls (snd (updatePoll (Sample.env_of (Some "alice")) Sample.poll_id
                (Sample.form "Best colour?" ["Red"; "Green"]) Sample.world))
    = polls Sample.world.
Proof.
  destruct (non_owner_is_refused_and_changes_nothing
              (Sample.env_of (Some "alice")) "alice" Sample.poll_id Sample.poll_id
              (Sample.form "Best colour?" ["Red"; "Green"])
              Sample.best_color Sample.best_color Sample.world)
    as [_ (_ & Hpolls & _)].
  - reflexivity.
  - vm_compute. reflexivity.
  - discriminate.
  - vm_compute. reflexivity.
  - discriminate.
  - split; [vm_compute; reflexivity |]. split; [vm_compute; reflexivity |]. exact Hpolls.
Defined.

End OwnershipClaim.

Module Voting.
Import Js Db PollActions Props.

Lemma lt_of_nat_0 (i : nat) : lt (of_nat i) (of_nat 0) = false.
Proof.
  unfold lt, of_nat, Qle_bool. cbn [inject_Z Qnum Qden negb].
  rewrite Z.mul_1_r. apply negb_false_iff, Z.leb_le. cbn. lia.
Qed.

Lemma ge_of_nat (i n : nat) : ge (of_nat i) (of_nat n) = (n <=? i)%nat.
Proof.
  unfold ge, of_nat, Qle_bool. cbn [inject_Z Qnum Qden].
  rewrite !Z.mul_1_r.
  destruct (Nat.leb_spec n i); [apply Z.leb_le | apply Z.leb_gt]; lia.
Qed.

Lemma vote_of_refl (p u : string) (i : number) (t : string) :
  vote_of p u {| vote_poll_id := p; vote_user_id := Some u;
                 vote_option_index := i; vote_created_at := t |} = true.
Proof. unfold vote_of. cbn. rewrite !String.eqb_refl. reflexivity. Qed.

(** A call that passes every check before the identity lookup, made by
    an authenticated caller who has no vote on the poll: the vote is
    appended and the call succeeds, whatever the later fetch of the
    results does. *)
Lemma submitVote_records (env : Env) (uid pollId : string) (index : number)
  (poll : PollRow) (options : list string) (w : World) :
  auth env = AuthUser (Some uid) ->
  polls_select_fails env = false ->
  votes_insert_fails env = false ->
  blank pollId = false ->
  uuidRegex_test (trim pollId) = true ->
  lt index (of_nat 0) = false ->
  polls w !! trim pollId = Some poll ->
  poll_options poll = Some options ->
  ge index (of_nat (length options)) = false ->
  votes_of (trim pollId) uid w = [] ->
  fst (submitVote env pollId (VNumber index) w) = Success /\
  polls (snd (submitVote env pollId (VNumber index) w)) = polls w /\
  votes (snd (submitVote env pollId (VNumber index) w)) =
    (votes w ++ [{| vote_poll_id := trim pollId; vote_user_id := Some uid;
                    vote_option_index := index; vote_created_at := now env |}])%list.
Proof.
  intros Hauth Hsel Hins Hblank Huuid Hlt Hpoll Hopts Hge Hnone.
  unfold submitVote. rewrite Hblank. cbn [as_number]. rewrite Hlt, Huuid.
  cbn [negb]. unfold polls_select_single. rewrite Hsel, Hpoll, Hopts, Hge.
  unfold getUser. rewrite Hauth.
  unfold votes_select_maybeSingle.
  assert (Hf : List.filter (vote_of (trim pollId) uid)
                 (votes (record AuthGetUser (record (PollsSelectSingle (trim pollId)) w)))
               = []) by exact Hnone.
  rewrite Hf.
  destruct (votes_select_fails env);
    unfold votes_insert; rewrite Hins; cbn [negb];
    unfold votes_select_option_index;
    destruct (votes_results_fails env); cbn; auto.
Qed.

(** The same call when the caller already has exactly one vote on the
    poll and the lookup of that vote succeeds. *)
Lemma submitVote_duplicate (env : Env) (uid pollId : string) (index : number)
  (poll : PollRow) (options : list string) (v : VoteRow) (w : World) :
  auth env = AuthUser (Some uid) ->
  polls_select_fails env = false ->
  votes_select_fails env = false ->
  blank pollId = false ->
  uuidRegex_test (trim pollId) = true ->
  lt index (of_nat 0) = false ->
  polls w !! trim pollId = Some poll ->
  poll_options poll = Some options ->
  ge index (of_nat (length options)) = false ->
  votes_of (trim pollId) uid w = [v] ->
  fst (submitVote env pollId (VNumber index) w) = Failure DuplicateVote /\
  polls (snd (submitVote env pollId (VNumber index) w)) = polls w /\
  votes (snd (submitVote env pollId (VNumber index) w)) = votes w.
Proof.
  intros Hauth Hsel Hvsel Hblank Huuid Hlt Hpoll Hopts Hge Hone.
  unfold submitVote. rewrite Hblank. cbn [as_number]. rewrite Hlt, Huuid.
  cbn [negb]. unfold polls_select_single. rewrite Hsel, Hpoll, Hopts, Hge.
  unfold getUser. rewrite Hauth.
  unfold votes_select_maybeSingle. rewrite Hvsel.
  assert (Hf : List.filter (vote_of (trim pollId) uid)
                 (votes (record AuthGetUser (record (PollsSelectSingle (trim pollId)) w)))
               = [v]) by exact Hone.
  rewrite Hf. cbn. auto.
Qed.

End Voting.

Module OneVoteClaim.
Import Js Db PollActions Props Voting.

(** While the lookup of the caller's earlier vote succeeds, the second
    of two votes is refused.  An authenticated caller [uid] who has no
    vote yet on a poll votes on it twice in a row, each time with an
    option index inside the poll's options, the requests to the two
    services succeeding: the first call returns success, the second is
    refused with "You have already voted on this poll", and afterwards
    table [votes] holds exactly one vote of [uid] on the poll. *)
Theorem second_vote_is_refused
  (env1 env2 : Env) (uid pollId : string) (i1 i2 : nat)
  (poll : PollRow) (options : list string) (w : World) :
  auth env1 = AuthUser (Some uid) ->
  auth env2 = AuthUser (Some uid) ->
  polls_select_fails env1 = false ->
  votes_insert_fails env1 = false ->
  polls_select_fails env2 = false ->
  votes_select_fails env2 = false ->
  blank pollId = false ->
  uuidRegex_test (trim pollId) = true ->
  polls w !! trim pollId = Some poll ->
  poll_options poll = Some options ->
  (i1 < length options)%nat ->
  (i2 < length options)%nat ->
  votes_of (trim pollId) uid w = [] ->
  let first := submitVote env1 pollId (VNumber (of_nat i1)) w in
  let second := submitVote env2 pollId (VNumber (of_nat i2)) (snd first) in
  fst first = Success /\
  fst second = Failure DuplicateVote /\
  length (votes_of (trim pollId) uid (snd second)) = 1%nat /\
  (length (votes_of (trim pollId) uid (snd second)) <= 1)%nat.
Proof.
  intros Ha1 Ha2 Hs1 Hi1 Hs2 Hv2 Hblank Huuid Hpoll Hopts Hlt1 Hlt2 Hnone.
  intros first second.
  assert (Hge1 : ge (of_nat i1) (of_nat (length options)) = false)
    by (rewrite ge_of_nat; apply Nat.leb_gt; exact Hlt1).
  assert (Hge2 : ge (of_nat i2) (of_nat (length options)) = false)
    by (rewrite ge_of_nat; apply Nat.leb_gt; exact Hlt2).
  destruct (submitVote_records env1 uid pollId (of_nat i1) poll options w
              Ha1 Hs1 Hi1 Hblank Huuid (lt_of_nat_0 i1) Hpoll Hopts Hge1 Hnone)
    as (Hr1 & Hp1 & Hvotes1).
  fold first in Hr1, Hp1, Hvotes1.
  assert (Hone : votes_of (trim pollId) uid (snd first) =
                 [{| vote_poll_id := trim pollId; vote_user_id := Some uid;
                     vote_option_index := of_nat i1; vote_created_at := now env1 |}]).
  { unfold votes_of in *. rewrite Hvotes1, List.filter_app, Hnone.
    cbn [List.filter app]. rewrite vote_of_refl. reflexivity. }
  assert (Hpoll1 : polls (snd first) !! trim pollId = Some poll)
    by (rewrite Hp1; exact Hpoll).
  destruct (submitVote_duplicate env2 uid pollId (of_nat i2) poll options _ (snd first)
              Ha2 Hs2 Hv2 Hblank Huuid (lt_of_nat_0 i2) Hpoll1 Hopts Hge2 Hone)
    as (Hr2 & _ & Hvotes2).
  fold second in Hr2, Hvotes2.
  assert (Hlen : length (votes_of (trim pollId) uid (snd second)) = 1%nat).
  { unfold votes_of in *. rewrite Hvotes2, Hone. reflexivity. }
  split; [exact Hr1 |]. split; [exact Hr2 |]. split; [exact Hlen |].
  rewrite Hlen. lia.
Qed.

(** Alice votes for "Red", then for "Blue", on bob's poll. *)
Lemma second_vote_is_refused_witness :
  let first := submitVote (Sample.env_of (Some "alice")) Sample.poll_id
                 (VNumber (of_nat 0)) Sample.world in
  let second := submitVote (Sample.env_of (Some "alice")) Sample.poll_id
                  (VNumber (of_nat 1)) (snd first) in
  fst first = Success /\
  fst second = Failure DuplicateVote /\
  length (votes_of (trim Sample.poll_id) "alice" (snd second)) = 1%nat /\
  (length (votes_of (trim Sample.poll_id) "alice" (snd second)) <= 1)%nat.
Proof.
  apply (second_vote_is_refused
           (Sample.env_of (Some "alice")) (Sample.env_of (Some "alice"))
           "alice" Sample.poll_id 0 1 Sample.best_color ["Red"; "Blue"] Sample.world);
    try reflexivity; cbn; lia.
Defined.

(** The lookup of the caller's earlier vote failing, [submitVote] does
    not look at the error: whatever votes the caller has on the poll, a
    call that passes the other checks inserts one more and returns
    success. *)
Lemma submitVote_inserts_when_lookup_fails (env : Env) (uid pollId : string)
  (index : number) (poll : PollRow) (options : list string) (w : World) :
  auth env = AuthUser (Some uid) ->
  polls_select_fails env = false ->
  votes_select_fails env = true ->
  votes_insert_fails env = false ->
  blank pollId = false ->
  uuidRegex_test (trim pollId) = true ->
  lt index (of_nat 0) = false ->
  polls w !! trim pollId = Some poll ->
  poll_options poll = Some options ->
  ge index (of_nat (length options)) = false ->
  fst (submitVote env pollId (VNumber index) w) = Success /\
  votes (snd (submitVote env pollId (VNumber index) w)) =
    (votes w ++ [{| vote_poll_id := trim pollId; vote_user_id := Some uid;
                    vote_option_index := index; vote_created_at := now env |}])%list.
Proof.
  intros Hauth Hsel Hvsel Hins Hblank Huuid Hlt Hpoll Hopts Hge.
  unfold submitVote. rewrite Hblank. cbn [as_number]. rewrite Hlt, Huuid.
  cbn [negb]. unfold polls_select_single. rewrite Hsel, Hpoll, Hopts, Hge.
  unfold getUser. rewrite Hauth.
  unfold votes_select_maybeSingle. rewrite Hvsel.
  unfold votes_insert. rewrite Hins. cbn [negb].
  unfold votes_select_option_index.
  destruct (votes_results_fails env); cbn; auto.
Qed.

(** C2: the code at two votes of alice in a row on bob's poll, with
    option indices 0 and 1, the lookup of her earlier vote failing at
    the second call.  The first call returns success; the second is not
    answered "You have already voted on this poll": it returns success
    too, and table [votes] then holds two votes of alice on the poll. *)
Theorem second_vote_is_recorded_when_lookup_fails :
  let first := submitVote (Sample.env_of (Some "alice")) Sample.poll_id
                 (VNumber (of_nat 0)) Sample.world in
  let second := submitVote (Faults.env_lookup_fails (Some "alice")) Sample.poll_id
                  (VNumber (of_nat 1)) (snd first) in
  fst first = Success /\
  length (votes_of Sample.poll_id "alice" (snd first)) = 1%nat /\
  fst second = Success /\
  fst second <> Failure DuplicateVote /\
  length (votes_of Sample.poll_id "alice" (snd second)) = 2%nat.
Proof. vm_compute. repeat split. discriminate. Qed.

End OneVoteClaim.

Module VoteChecks.
Import Js Db PollActions Props Steps Voting.

Lemma app_one_neq {A : Type} (l : list A) (x : A) : (l ++ [x])%list <> l.
Proof.
  intros H. apply (f_equal (@length A)) in H.
  rewrite length_app in H. cbn in H. lia.
Qed.

(** [submitVote] leaves table [votes] alone, or it appends one row, the
    call succeeds and the index has passed the range check. *)
Lemma submitVote_cases (env : Env) (pollId : string) (optionIndex : value) (w : World) :
  ((exists e, fst (submitVote env pollId optionIndex w) = Failure e) /\
   votes (snd (submitVote env pollId optionIndex w)) = votes w) \/
  (fst (submitVote env pollId optionIndex w) = Success /\
   (exists row, votes (snd (submitVote env pollId optionIndex w)) = (votes w ++ [row])%list) /\
   passes_range_check pollId optionIndex w).
Proof.
  unfold passes_range_check.
  run_submitVote;
    try (left; split; [eexists; reflexivity | reflexivity]);
    right; (split; [reflexivity |]); (split; [eexists; reflexivity |]);
    destruct optionIndex; try discriminate;
    repeat match goal with
           | H : as_number _ = Some _ |- _ => cbn in H; injection H as H; subst
           end;
    eauto 10.
Qed.

(** [submitVote] never answers "already voted" to a caller without
    identity. *)
Lemma submitVote_anonymous (env : Env) (pollId : string) (optionIndex : value) (w : World) :
  auth env = AuthUser None ->
  fst (submitVote env pollId optionIndex w) <> Failure DuplicateVote.
Proof.
  intros Hauth. run_submitVote; try discriminate; congruence.
Qed.

End VoteChecks.

Module VoteClaims.
Import Js Db PollActions Props Steps Voting VoteChecks.






(** C7: the code at an index that is a number, is not below zero and is
    below the number of options, yet is no integer.  The calls succeed
    and the index is stored as given. *)
Theorem fractional_index_is_recorded :
  let half := submitVote (Sample.env_of (Some "alice")) Sample.poll_id
                (VNumber (Finite (1 # 2))) Sample.world in
  let nan := submitVote (Sample.env_of (Some "alice")) Sample.poll_id
               (VNumber NaN) Sample.world in
  fst half = Success /\
  map vote_option_index (votes (snd half)) = [Finite (1 # 2)] /\
  fst nan = Success /\
  map vote_option_index (votes (snd nan)) = [NaN].
Proof. vm_compute. repeat split. Qed.

(** What the two checks of the index do refuse: a value that is no
    number, a number below zero, a number not below the number of
    options. *)
Lemma bad_index_is_refused (env : Env) (pollId : string) (optionIndex : value)
  (poll : PollRow) (options : list string) (w : World) :
  blank pollId = false ->
  uuidRegex_test (trim pollId) = true ->
  polls_select_fails env = false ->
  polls w !! trim pollId = Some poll ->
  poll_options poll = Some options ->
  (as_number optionIndex = None \/
   exists index, optionIndex = VNumber index /\
                 (lt index (of_nat 0) = true \/ ge index (of_nat (length options)) = true)) ->
  fst (submitVote env pollId optionIndex w) = Failure InvalidOption /\
  votes (snd (submitVote env pollId optionIndex w)) = votes w.
Proof.
  intros Hblank Huuid Hsel Hpoll Hopts Hbad.
  unfold submitVote. rewrite Hblank.
  destruct Hbad as [Hnone | (index & -> & Hbad)].
  - rewrite Hnone. auto.
  - cbn [as_number]. destruct (lt index (of_nat 0)) eqn:Hlt; [auto |].
    destruct Hbad as [Hbad | Hbad]; [discriminate |].
    rewrite Huuid. cbn [negb]. unfold polls_select_single.
    rewrite Hsel, Hpoll, Hopts, Hbad. auto.
Qed.

(** Whether the fetch of the results fails has no bearing on what
    [submitVote] returns. *)
Lemma results_flag_irrelevant (b : bool) (env : Env) (pollId : string)
  (optionIndex : value) (w : World) :
  fst (submitVote (with_results_fails b env) pollId optionIndex w) =
  fst (submitVote env pollId optionIndex w).
Proof.
  unfold submitVote, polls_select_single, getUser, votes_select_maybeSingle,
    votes_insert, votes_select_option_index, with_results_fails.
  cbn [auth polls_select_fails votes_select_fails votes_insert_fails
       votes_results_fails now].
  repeat (split_innermost; cbn [fst snd negb as_number]); reflexivity.
Qed.

(** C10.  When a call of [submitVote] has changed table [votes], which
    only its insert does, the call returns [{ error: null, success: true }],
    whether the fetch of the results that follows fails or not; the
    object returned is that one or [{ error }], neither of which has a
    field for the counts. *)
Theorem recorded_vote_returns_success
  (env : Env) (pollId : string) (optionIndex : value) (w : World) :
  votes (snd (submitVote env pollId optionIndex w)) <> votes w ->
  fst (submitVote env pollId optionIndex w) = Success /\
  (forall b, fst (submitVote (with_results_fails b env) pollId optionIndex w) = Success) /\
  (forall e p o w', fst (submitVote e p o w') = Success \/
                    exists msg, fst (submitVote e p o w') = Failure msg).
Proof.
  intros Hchanged. split; [| split].
  - destruct (submitVote_cases env pollId optionIndex w) as [[_ H] | (H & _)];
      [contradiction | exact H].
  - intros b. rewrite results_flag_irrelevant.
    destruct (submitVote_cases env pollId optionIndex w) as [[_ H] | (H & _)];
      [contradiction | exact H].
  - intros e p o w'. destruct (submitVote_cases e p o w') as [[H _] | (H & _)]; auto.
Qed.

(** Alice votes while the fetch of the results fails. *)
Lemma recorded_vote_returns_success_witness :
  votes_results_fails (with_results_fails true (Sample.env_of (Some "alice"))) = true /\
  fst (submitVote (with_results_fails true (Sample.env_of (Some "alice")))
         Sample.poll_id (VNumber (of_nat 1)) Sample.world) = Success.
Proof.
  split; [reflexivity |].
  apply (recorded_vote_returns_success
           (with_results_fails true (Sample.env_of (Some "alice")))
           Sample.poll_id (VNumber (of_nat 1)) Sample.world).
  vm_compute. discriminate.
Defined.

End VoteClaims.

Module CascadeClaim.
Import Js Db PollActions Props.

(** C4.  [deletePoll] called by the owner of the poll, the request
    passing the input checks and the lookup of the poll succeeding.
    When the deletion of the votes fails, the call returns "Failed to
    delete poll votes", the deletion of the poll is not requested, and
    both tables are what they were.  Otherwise the deletion of the votes
    is requested before that of the poll, no vote on the poll is left,
    and the poll is removed when its own deletion succeeds. *)
Theorem votes_are_deleted_before_the_poll
  (env : Env) (uid id : string) (poll : PollRow) (w : World) :
  delete_input_ok id = true ->
  auth env = AuthUser (Some uid) ->
  polls_select_fails env = false ->
  polls w !! trim id = Some poll ->
  poll_user_id poll = uid ->
  (votes_delete_fails env = true ->
   fst (deletePoll env id w) = Failure "Failed to delete poll votes" /\
   polls (snd (deletePoll env id w)) = polls w /\
   votes (snd (deletePoll env id w)) = votes w /\
   journal (snd (deletePoll env id w)) =
     (journal w ++ [AuthGetUser; PollsSelectSingle (trim id); VotesDelete (trim id)])%list) /\
  (votes_delete_fails env = false ->
   journal (snd (deletePoll env id w)) =
     (journal w ++ [AuthGetUser; PollsSelectSingle (trim id);
                    VotesDelete (trim id); PollsDelete (trim id) uid])%list /\
   List.filter (fun v => String.eqb (vote_poll_id v) (trim id))
     (votes (snd (deletePoll env id w))) = [] /\
   (polls_delete_fails env = false ->
    fst (deletePoll env id w) = Success /\
    polls (snd (deletePoll env id w)) = delete (trim id) (polls w))).
Proof.
  intros Hok Hauth Hsel Hpoll Hown.
  unfold delete_input_ok in Hok. apply andb_true_iff in Hok as [Hblank Huuid].
  apply negb_true_iff in Hblank.
  unfold deletePoll. rewrite Hblank, Huuid. cbn [negb].
  unfold getUser. rewrite Hauth.
  unfold polls_select_single. rewrite Hsel. cbn [polls record].
  rewrite Hpoll, Hown, String.eqb_refl. cbn [negb].
  unfold votes_delete. split; intros Hvd; rewrite Hvd; cbn [negb fst snd].
  - cbn [polls votes journal record]. rewrite <- !app_assoc. auto.
  - unfold polls_delete. cbn [polls set_votes record].
    rewrite Hpoll, Hown, String.eqb_refl.
    split; [| split].
    + destruct (polls_delete_fails env); cbn; rewrite <- !app_assoc; reflexivity.
    + assert (Hgone : List.filter (fun v => String.eqb (vote_poll_id v) (trim id))
                        (List.filter (fun v => negb (String.eqb (vote_poll_id v) (trim id)))
                           (votes w)) = []).
      { induction (votes w) as [| v vs IH]; [reflexivity |].
        cbn [List.filter]. destruct (String.eqb (vote_poll_id v) (trim id)) eqn:E; cbn.
        - exact IH.
        - rewrite E. exact IH. }
      destruct (polls_delete_fails env); cbn; exact Hgone.
    + intros Hpd. rewrite Hpd. cbn. auto.
Qed.

(** Bob deletes his poll, on which two votes were cast: once while the
    deletion of the votes fails, once while every request succeeds. *)
Lemma votes_are_deleted_before_the_poll_witness :
  (fst (deletePoll (Sample.env_votes_delete_fails (Some "bob")) Sample.poll_id
          Sample.voted_world) = Failure "Failed to delete poll votes" /\
   polls (snd (deletePoll (Sample.env_votes_delete_fails (Some "bob")) Sample.poll_id
                 Sample.voted_world)) = polls Sample.voted_world /\
   votes (snd (deletePoll (Sample.env_votes_delete_fails (Some "bob")) Sample.poll_id
                 Sample.voted_world)) = votes Sample.voted_world) /\
  (fst (deletePoll (Sample.env_of (Some "bob")) Sample.poll_id Sample.voted_world)
     = Success /\
   journal (snd (deletePoll (Sample.env_of (Some "bob")) Sample.poll_id Sample.voted_world))
     = [AuthGetUser; PollsSelectSingle Sample.poll_id;
        VotesDelete Sample.poll_id; PollsDelete Sample.poll_id "bob"]).
Proof.
  split.
  - destruct (votes_are_deleted_before_the_poll
                (Sample.env_votes_delete_fails (Some "bob")) "bob" Sample.poll_id
                Sample.best_color Sample.voted_world) as [Hfails _];
      try reflexivity.
    destruct (Hfails eq_refl) as (Hr & Hp & Hv & _). repeat split; assumption.
  - destruct (votes_are_deleted_before_the_poll
                (Sample.env_of (Some "bob")) "bob" Sample.poll_id
                Sample.best_color Sample.voted_world) as [_ Hok];
      try reflexivity.
    destruct (Hok eq_refl) as (Hj & _ & Hd).
    destruct (Hd eq_refl) as (Hr & _). split; [exact Hr | exact Hj].
Defined.

(** The converse order of failures is not excluded: when the deletion of
    the votes succeeds and the deletion of the poll then fails, the call
    is refused, the poll stays and its votes are gone. *)
Lemma poll_deletion_failure_after_votes_deleted
  (env : Env) (uid id : string) (poll : PollRow) (w : World) :
  delete_input_ok id = true ->
  auth env = AuthUser (Some uid) ->
  polls_select_fails env = false ->
  polls w !! trim id = Some poll ->
  poll_user_id poll = uid ->
  votes_delete_fails env = false ->
  polls_delete_fails env = true ->
  fst (deletePoll env id w) = Failure "Failed to delete poll" /\
  polls (snd (deletePoll env id w)) = polls w /\
  votes (snd (deletePoll env id w)) =
    List.filter (fun v => negb (String.eqb (vote_poll_id v) (trim id))) (votes w).
Proof.
  intros Hok Hauth Hsel Hpoll Hown Hvd Hpd.
  unfold delete_input_ok in Hok. apply andb_true_iff in Hok as [Hblank Huuid].
  apply negb_true_iff in Hblank.
  unfold deletePoll. rewrite Hblank, Huuid. cbn [negb].
  unfold getUser. rewrite Hauth.
  unfold polls_select_single. rewrite Hsel. cbn [polls record].
  rewrite Hpoll, Hown, String.eqb_refl. cbn [negb].
  unfold votes_delete. rewrite Hvd. cbn [negb].
  unfold polls_delete. rewrite Hpd. cbn. auto.
Qed.

End CascadeClaim.

Module ValidationClaims.
Import Js Db PollActions Props.

(** [createPoll] on a question that is not blank and more than twenty
    options, all different once trimmed: the call is refused with
    "Maximum of 20 options allowed" before any request is sent. *)
Lemma createPoll_too_many_options (env : Env) (question : string) (formData : FormData)
  (w : World) :
  fd_question formData = Some (FString question) ->
  blank question = false ->
  set_size (sanitized_options formData) = length (sanitized_options formData) ->
  (20 < length (sanitized_options formData))%nat ->
  createPoll env formData w = (Returns (Failure TooManyOptions), w).
Proof.
  intros Hq Hblank Hset Hlen. unfold createPoll. rewrite Hq, Hblank, Hset.
  rewrite Nat.eqb_refl. cbn [negb].
  destruct (Nat.ltb_spec (length (sanitized_options formData)) 2); [lia |].
  destruct (Nat.ltb_spec 20 (length (sanitized_options formData))); [reflexivity | lia].
Qed.

(** [updatePoll] by the owner on an input that passes its checks: the
    options are stored, however many they are. *)
Lemma updatePoll_by_owner (env : Env) (uid pollId question : string) (formData : FormData)
  (poll : PollRow) (w : World) :
  update_input_ok pollId formData = true ->
  fd_question formData = Some (FString question) ->
  auth env = AuthUser (Some uid) ->
  polls_select_fails env = false ->
  polls_update_fails env = false ->
  polls w !! pollId = Some poll ->
  poll_user_id poll = uid ->
  fst (updatePoll env pollId formData w) = Returns Done /\
  polls (snd (updatePoll env pollId formData w)) !! pollId =
    Some {| poll_user_id := uid;
            poll_question := trim question;
            poll_options := Some (map trim (sanitized_options formData));
            poll_created_at := poll_created_at poll |}.
Proof.
  intros Hok Hq Hauth Hsel Hupd Hpoll Hown.
  unfold update_input_ok in Hok. rewrite Hq in Hok.
  apply andb_true_iff in Hok as [Hid Hok].
  apply andb_true_iff in Hok as [Hok Hset].
  apply andb_true_iff in Hok as [Hblank Hlen].
  apply negb_true_iff in Hid, Hblank, Hlen.
  unfold updatePoll. rewrite Hid, Hq, Hblank, Hlen, Hset. cbn [negb].
  unfold getUser. rewrite Hauth.
  unfold polls_select_single. rewrite Hsel. cbn [polls record].
  rewrite Hpoll, Hown, String.eqb_refl. cbn [negb].
  unfold polls_update. rewrite Hupd. cbn [polls record].
  rewrite Hpoll, Hown, String.eqb_refl. cbn [negb fst snd polls set_polls].
  split; [reflexivity |]. apply lookup_insert_eq.
Qed.

(** C5: the code at a question and twenty-one different options.
    [createPoll] refuses them with "Maximum of 20 options allowed" and
    stores nothing; [updatePoll], called by the owner of the poll,
    returns [{ error: null }] and stores the twenty-one options. *)
Theorem updatePoll_stores_twenty_one_options :
  let formData := Sample.form "Best letter?" Sample.letters in
  let created := createPoll (Sample.env_of (Some "bob")) formData Sample.world in
  let updated := updatePoll (Sample.env_of (Some "bob")) Sample.poll_id formData
                   Sample.world in
  length (sanitized_options formData) = 21%nat /\
  created = (Returns (Failure TooManyOptions), Sample.world) /\
  fst updated = Returns Done /\
  (poll_options <$> polls (snd updated) !! Sample.poll_id) = Some (Some Sample.letters).
Proof.
  cbv zeta. split; [reflexivity |]. split.
  - apply (createPoll_too_many_options _ "Best letter?"); try reflexivity.
    vm_compute. lia.
  - destruct (updatePoll_by_owner (Sample.env_of (Some "bob")) "bob" Sample.poll_id
                "Best letter?" (Sample.form "Best letter?" Sample.letters)
                Sample.best_color Sample.world) as [Hr Hp]; try reflexivity.
    split; [exact Hr |]. rewrite Hp. reflexivity.
Qed.

(** [deletePoll] on an id whose sanitised form the UUID pattern does not
    match: refused before any request is sent. *)
Lemma deletePoll_malformed_id (env : Env) (id : string) (w : World) :
  uuidRegex_test (trim id) = false ->
  deletePoll env id w = (Failure InvalidId, w) \/
  deletePoll env id w = (Failure MalformedId, w).
Proof.
  intros H. unfold deletePoll. destruct (blank id); [left; reflexivity |].
  rewrite H. right. reflexivity.
Qed.

(** [updatePoll] makes no use of the UUID pattern: whatever the id that
    is not blank, an input that passes the other checks goes on to the
    identity service and to table [polls]. *)
Lemma updatePoll_looks_up_any_id (env : Env) (uid pollId : string) (formData : FormData)
  (w : World) :
  update_input_ok pollId formData = true ->
  auth env = AuthUser (Some uid) ->
  exists rest,
    journal (snd (updatePoll env pollId formData w)) =
      (journal w ++ AuthGetUser :: PollsSelectSingle pollId :: rest)%list.
Proof.
  intros Hok Hauth. unfold update_input_ok in Hok.
  destruct (fd_question formData) as [[question|]|] eqn:Hq;
    try (rewrite andb_false_r in Hok; discriminate).
  apply andb_true_iff in Hok as [Hid Hok].
  apply andb_true_iff in Hok as [Hok Hset].
  apply andb_true_iff in Hok as [Hblank Hlen].
  apply negb_true_iff in Hid, Hblank, Hlen.
  unfold updatePoll. rewrite Hid, Hq, Hblank, Hlen, Hset. cbn [negb].
  unfold getUser. rewrite Hauth. unfold polls_select_single, polls_update.
  destruct (polls_select_fails env); cbn [polls record fst snd].
  - exists []. cbn. rewrite <- app_assoc. reflexivity.
  - destruct (polls w !! pollId) as [poll|]; cbn [fst snd].
    + destruct (String.eqb (poll_user_id poll) uid); cbn [negb fst snd].
      * eexists. destruct (polls_update_fails env); cbn;
          rewrite <- !app_assoc; cbn; reflexivity.
      * exists []. cbn. rewrite <- app_assoc. reflexivity.
    + exists []. cbn. rewrite <- app_assoc. reflexivity.
Qed.

(** C6: the code at the id "not-a-uuid".  [deletePoll] refuses it with
    "Invalid poll ID format" and sends no request; [updatePoll] asks the
    identity service and table [polls], and answers "Poll not found". *)
Theorem updatePoll_accepts_malformed_id :
  let formData := Sample.form "Best colour?" ["Red"; "Green"] in
  let deleted := deletePoll (Sample.env_of (Some "bob")) "not-a-uuid" Sample.world in
  let updated := updatePoll (Sample.env_of (Some "bob")) "not-a-uuid" formData
                   Sample.world in
  uuidRegex_test "not-a-uuid" = false /\
  deleted = (Failure MalformedId, Sample.world) /\
  fst updated = Returns (Failure NotFound) /\
  journal (snd updated) = [AuthGetUser; PollsSelectSingle "not-a-uuid"].
Proof. cbv zeta. repeat split; vm_compute; reflexivity. Qed.

End ValidationClaims.

Module DisclosureClaim.
Import Js Db PollActions Props.

Lemma deletePoll_missing (env : Env) (uid id : string) (w : World) :
  delete_input_ok id = true ->
  auth env = AuthUser (Some uid) ->
  polls w !! trim id = None ->
  fst (deletePoll env id w) = Failure NotFound.
Proof.
  intros Hok Hauth Hnone.
  unfold delete_input_ok in Hok. apply andb_true_iff in Hok as [Hblank Huuid].
  apply negb_true_iff in Hblank.
  unfold deletePoll. rewrite Hblank, Huuid. cbn [negb].
  unfold getUser. rewrite Hauth. unfold polls_select_single.
  destruct (polls_select_fails env); cbn [polls record]; [| rewrite Hnone]; reflexivity.
Qed.

Lemma deletePoll_foreign (env : Env) (uid id : string) (poll : PollRow) (w : World) :
  delete_input_ok id = true ->
  auth env = AuthUser (Some uid) ->
  polls_select_fails env = false ->
  polls w !! trim id = Some poll ->
  poll_user_id poll <> uid ->
  fst (deletePoll env id w) = Failure ForbiddenDelete.
Proof.
  intros Hok Hauth Hsel Hpoll Hown.
  unfold delete_input_ok in Hok. apply andb_true_iff in Hok as [Hblank Huuid].
  apply negb_true_iff in Hblank.
  unfold deletePoll. rewrite Hblank, Huuid. cbn [negb].
  unfold getUser. rewrite Hauth. unfold polls_select_single.
  rewrite Hsel. cbn [polls record]. rewrite Hpoll.
  rewrite (proj2 (String.eqb_neq _ _) Hown). reflexivity.
Qed.

Lemma updatePoll_missing (env : Env) (uid pollId : string) (formData : FormData) (w : World) :
  update_input_ok pollId formData = true ->
  auth env = AuthUser (Some uid) ->
  polls w !! pollId = None ->
  fst (updatePoll env pollId formData w) = Returns (Failure NotFound).
Proof.
  intros Hok Hauth Hnone. unfold update_input_ok in Hok.
  destruct (fd_question formData) as [[question|]|] eqn:Hq;
    try (rewrite andb_false_r in Hok; discriminate).
  apply andb_true_iff in Hok as [Hid Hok].
  apply andb_true_iff in Hok as [Hok Hset].
  apply andb_true_iff in Hok as [Hblank Hlen].
  apply negb_true_iff in Hid, Hblank, Hlen.
  unfold updatePoll. rewrite Hid, Hq, Hblank, Hlen, Hset. cbn [negb].
  unfold getUser. rewrite Hauth. unfold polls_select_single.
  destruct (polls_select_fails env); cbn [polls record]; [| rewrite Hnone]; reflexivity.
Qed.

Lemma updatePoll_foreign (env : Env) (uid pollId : string) (formData : FormData)
  (poll : PollRow) (w : World) :
  update_input_ok pollId formData = true ->
  auth env = AuthUser (Some uid) ->
  polls_select_fails env = false ->
  polls w !! pollId = Some poll ->
  poll_user_id poll <> uid ->
  fst (updatePoll env pollId formData w) = Returns (Failure ForbiddenUpdate).
Proof.
  intros Hok Hauth Hsel Hpoll Hown. unfold update_input_ok in Hok.
  destruct (fd_question formData) as [[question|]|] eqn:Hq;
    try (rewrite andb_false_r in Hok; discriminate).
  apply andb_true_iff in Hok as [Hid Hok].
  apply andb_true_iff in Hok as [Hok Hset].
  apply andb_true_iff in Hok as [Hblank Hlen].
  apply negb_true_iff in Hid, Hblank, Hlen.
  unfold updatePoll. rewrite Hid, Hq, Hblank, Hlen, Hset. cbn [negb].
  unfold getUser. rewrite Hauth. unfold polls_select_single.
  rewrite Hsel. cbn [polls record]. rewrite Hpoll.
  rewrite (proj2 (String.eqb_neq _ _) Hown). reflexivity.
Qed.

(** C8, as the code has it.  The request passing the input checks and
    the lookup succeeding, a caller who is not the owner of the poll is
    answered "You do not have permission to delete (update) this poll",
    and a caller who names an id under which there is no poll is
    answered "Poll not found": the two answers differ. *)
Theorem refusal_tells_foreign_from_missing
  (env : Env) (uid id pollId : string) (formData : FormData)
  (deleted updated : PollRow) (foreign missing : World) :
  delete_input_ok id = true ->
  update_input_ok pollId formData = true ->
  auth env = AuthUser (Some uid) ->
  polls_select_fails env = false ->
  polls foreign !! trim id = Some deleted -> poll_user_id deleted <> uid ->
  polls foreign !! pollId = Some updated -> poll_user_id updated <> uid ->
  polls missing !! trim id = None ->
  polls missing !! pollId = None ->
  (fst (deletePoll env id foreign) = Failure ForbiddenDelete /\
   fst (deletePoll env id missing) = Failure NotFound /\
   fst (deletePoll env id foreign) <> fst (deletePoll env id missing)) /\
  (fst (updatePoll env pollId formData foreign) = Returns (Failure ForbiddenUpdate) /\
   fst (updatePoll env pollId formData missing) = Returns (Failure NotFound) /\
   fst (updatePoll env pollId formData foreign) <> fst (updatePoll env pollId formData missing)).
Proof.
  intros Hdok Huok Hauth Hsel Hd Hdo Hu Huo Hdn Hun.
  rewrite (deletePoll_foreign env uid id deleted foreign Hdok Hauth Hsel Hd Hdo).
  rewrite (deletePoll_missing env uid id missing Hdok Hauth Hdn).
  rewrite (updatePoll_foreign env uid pollId formData updated foreign Huok Hauth Hsel Hu Huo).
  rewrite (updatePoll_missing env uid pollId formData missing Huok Hauth Hun).
  repeat split; discriminate.
Qed.

(** Alice names bob's poll, then the same id when there is no poll. *)
Lemma refusal_tells_foreign_from_missing_witness :
  fst (deletePoll (Sample.env_of (Some "alice")) Sample.poll_id Sample.world)
    = Failure ForbiddenDelete /\
  fst (deletePoll (Sample.env_of (Some "alice")) Sample.poll_id Sample.empty_world)
    = Failure NotFound.
Proof.
  destruct (refusal_tells_foreign_from_missing
              (Sample.env_of (Some "alice")) "alice" Sample.poll_id Sample.poll_id
              (Sample.form "Best colour?" ["Red"; "Green"])
              Sample.best_color Sample.best_color Sample.world Sample.empty_world)
    as [(H1 & H2 & _) _]; try reflexivity; try discriminate.
  split; assumption.
Defined.

(** C8, as stated, fails: the answers to alice on bob's poll and on an
    id without poll are not the same, for [deletePoll] and for
    [updatePoll]. *)
Lemma refusal_reveals_the_poll :
  fst (deletePoll (Sample.env_of (Some "alice")) Sample.poll_id Sample.world) <>
  fst (deletePoll (Sample.env_of (Some "alice")) Sample.poll_id Sample.empty_world) /\
  fst (updatePoll (Sample.env_of (Some "alice")) Sample.poll_id
         (Sample.form "Best colour?" ["Red"; "Green"]) Sample.world) <>
  fst (updatePoll (Sample.env_of (Some "alice")) Sample.poll_id
         (Sample.form "Best colour?" ["Red"; "Green"]) Sample.empty_world).
Proof. vm_compute. split; discriminate. Qed.

End DisclosureClaim.

Module TokenClaim.
Import Js Db PollActions Props Client.

Lemma rotate_lookup (key newToken : string) (storage : Storage) :
  rotate key newToken storage !! key = Some newToken.
Proof. unfold rotate. apply lookup_insert_eq. Qed.

Lemma same_token_stored (presented : option FormDataEntryValue) (token : string) :
  same_token presented (Some token) = true <-> presented = Some (FString token).
Proof.
  unfold same_token. destruct presented as [[a|]|]; split; intros H;
    try discriminate.
  - apply String.eqb_eq in H. subst. reflexivity.
  - injection H as ->. apply String.eqb_refl.
Qed.

Lemma createAction_storage (env : Env) (newToken : string) (formData : FormData)
  (storage : Storage) (w : World) :
  storage_of (createAction env newToken formData storage w) =
    (if create_succeeded (view_of (createAction env newToken formData storage w))
     then rotate "pollCsrfToken" newToken storage else storage) /\
  implb (create_succeeded (view_of (createAction env newToken formData storage w)))
        (same_token (fd_csrfToken formData) (storage !! "pollCsrfToken")) = true.
Proof.
  unfold createAction, storage_of, view_of.
  destruct (same_token (fd_csrfToken formData) (storage !! "pollCsrfToken"));
    cbn [negb]; [| split; reflexivity].
  destruct (validateForm formData) as [[e|]|]; try (split; reflexivity).
  destruct (createPoll env formData w) as [[res|] w1]; [| split; reflexivity].
  destruct (error_of res); split; reflexivity.
Qed.

(** [handleVote] hands the [id] of the option, a string, to
    [submitVote], which refuses what is no number: the vote never goes
    through and the token of the page is never rotated. *)
Lemma handleVote_never_rotates (env : Env) (newToken params_id : string)
  (selectedOption : option string) (csrfToken : string) (storage : Storage) (w : World) :
  storage_of (handleVote env newToken params_id selectedOption csrfToken storage w) = storage /\
  vote_hasVoted (view_of (handleVote env newToken params_id selectedOption csrfToken storage w))
    = false.
Proof.
  unfold handleVote, storage_of, view_of.
  destruct selectedOption as [selected|]; [| split; reflexivity].
  destruct (String.eqb selected ""); [split; reflexivity |].
  destruct (same_token _ _); cbn [negb]; [| split; reflexivity].
  unfold submitVote. destruct (blank params_id); cbn; split; reflexivity.
Qed.

Lemma handleSubmit_storage (env : Env) (newToken : string) (form : LoginForm)
  (storage : Storage) (w : World) :
  storage_of (handleSubmit env newToken form storage w) =
    (if login_succeeded (view_of (handleSubmit env newToken form storage w))
     then rotate "csrfToken" newToken storage else storage) /\
  implb (login_succeeded (view_of (handleSubmit env newToken form storage w)))
        (same_token (lf_csrfToken form) (storage !! "csrfToken")) = true.
Proof.
  unfold handleSubmit, storage_of, view_of.
  destruct (lf_email form) as [[email|]|]; try (split; reflexivity).
  destruct (emailRegex_test email); cbn [negb]; [| split; reflexivity].
  destruct (lf_password form) as [[password|]|]; try (split; reflexivity).
  destruct (blank password); [split; reflexivity |].
  destruct (same_token (lf_csrfToken form) (storage !! "csrfToken"));
    cbn [negb]; [| split; reflexivity].
  destruct (AuthActions.login env email password w) as [res w1].
  destruct (error_of res); split; reflexivity.
Qed.

(** C9, as the code has it.  In each of the three scopes the stored
    token is replaced by a fresh one exactly when the submission goes
    through, which requires that the presented token was verified; after
    a failed verification, or after a verification followed by a refusal,
    the storage is what it was.  Once the token is replaced, a presented
    value is verified if and only if it is the fresh token. *)
Theorem token_rotates_on_success_only
  (env : Env) (newToken : string) (formData : FormData) (loginForm : LoginForm)
  (params_id : string) (selectedOption : option string) (csrfToken : string)
  (storage : Storage) (w : World) :
  let created := createAction env newToken formData storage w in
  let voted := handleVote env newToken params_id selectedOption csrfToken storage w in
  let logged := handleSubmit env newToken loginForm storage w in
  (storage_of created =
     (if create_succeeded (view_of created)
      then rotate "pollCsrfToken" newToken storage else storage) /\
   implb (create_succeeded (view_of created))
         (same_token (fd_csrfToken formData) (storage !! "pollCsrfToken")) = true) /\
  (storage_of logged =
     (if login_succeeded (view_of logged)
      then rotate "csrfToken" newToken storage else storage) /\
   implb (login_succeeded (view_of logged))
         (same_token (lf_csrfToken loginForm) (storage !! "csrfToken")) = true) /\
  (storage_of voted = storage /\ vote_hasVoted (view_of voted) = false) /\
  (forall key presented,
      same_token presented (rotate key newToken storage !! key) = true <->
      presented = Some (FString newToken)).
Proof.
  cbv zeta. split; [apply createAction_storage |].
  split; [apply handleSubmit_storage |].
  split; [apply handleVote_never_rotates |].
  intros key presented. rewrite rotate_lookup. apply same_token_stored.
Qed.

(** C9, as stated, fails.  A submission with a wrong token is turned
    down and the stored token stays.  A submission with the stored
    token by a visitor who is not logged in is verified, then refused by
    [createPoll]; the stored token stays and the same value is verified
    again. *)
Lemma failed_verification_keeps_the_token :
  let forged := Sample.form_with_token "Best colour?" ["Red"; "Green"] "guess" in
  let genuine := Sample.form_with_token "Best colour?" ["Red"; "Green"] "k3x9q2m7p1a" in
  let turned_down :=
    createAction (Sample.env_of (Some "bob")) "n5w8r4t6y0b" forged
      Sample.storage Sample.world in
  let refused :=
    createAction (Sample.env_of None) "n5w8r4t6y0b" genuine
      Sample.storage Sample.world in
  (view_of turned_down =
     Returns {| create_error := Some SecurityValidationFailed; create_success := false |} /\
   storage_of turned_down !! "pollCsrfToken" = Some "k3x9q2m7p1a") /\
  (view_of refused =
     Returns {| create_error := Some "You must be logged in to create a poll";
                create_success := false |} /\
   storage_of refused !! "pollCsrfToken" = Some "k3x9q2m7p1a" /\
   same_token (fd_csrfToken genuine) (storage_of refused !! "pollCsrfToken") = true).
Proof. vm_compute. repeat split. Qed.

End TokenClaim.

Module UuidShape.
Import Js Db PollActions Props.

Lemma is_dash_eq (c : ascii) : is_dash c = true -> c = "-"%char.
Proof.
  unfold is_dash. intros H. apply Nat.eqb_eq in H.
  rewrite <- (ascii_nat_embedding c), H. reflexivity.
Qed.

Lemma hex_digits_cons (c : ascii) (s : string) :
  hex_digits (String c s) = is_hex c && hex_digits s.
Proof. reflexivity. Qed.

Lemma append_cons (c : ascii) (a r : string) : String c a ++ r = String c (a ++ r).
Proof. reflexivity. Qed.

Lemma append_empty_r (s : string) : s ++ "" = s.
Proof.
  induction s as [| c s IH]; [reflexivity |].
  rewrite append_cons, IH. reflexivity.
Qed.

(** [hex_group n] reads exactly [n] hexadecimal digits. *)
Lemma hex_group_spec (n : nat) (s r : string) :
  hex_group n s = Some r <->
  exists a, s = a ++ r /\ String.length a = n /\ hex_digits a = true.
Proof.
  revert s. induction n as [| n IH]; intros s; cbn [hex_group].
  - split.
    + intros H. injection H as <-. exists "". auto.
    + intros (a & -> & Hlen & _). destruct a; [reflexivity | discriminate].
  - destruct s as [| c s].
    + split; [discriminate |].
      intros (a & Hs & Hlen & _). destruct a; discriminate.
    + destruct (is_hex c) eqn:Hc.
      * rewrite IH. split.
        -- intros (a & -> & Hlen & Hhex). exists (String c a).
           rewrite hex_digits_cons, Hc, Hhex, append_cons. cbn. auto.
        -- intros (a & Hs & Hlen & Hhex). destruct a as [| c' a]; [discriminate |].
           rewrite append_cons in Hs. injection Hs as <- ->. injection Hlen as Hlen.
           rewrite hex_digits_cons in Hhex. apply andb_true_iff in Hhex as [_ Hhex].
           exists a. auto.
      * split; [discriminate |].
        intros (a & Hs & Hlen & Hhex). destruct a as [| c' a]; [discriminate |].
        rewrite append_cons in Hs. injection Hs as <- ->.
        rewrite hex_digits_cons, Hc in Hhex. discriminate.
Qed.

Lemma hex_group_dash_spec (n : nat) (s r : string) :
  hex_group_dash n s = Some r <->
  exists a, s = a ++ "-" ++ r /\ String.length a = n /\ hex_digits a = true.
Proof.
  unfold hex_group_dash. split.
  - destruct (hex_group n s) as [[| c t] |] eqn:Hg; try discriminate.
    destruct (is_dash c) eqn:Hc; [| discriminate].
    intros H. injection H as <-. apply is_dash_eq in Hc. subst c.
    apply hex_group_spec in Hg. exact Hg.
  - intros (a & Hs & Hlen & Hhex).
    assert (Hg : hex_group n s = Some ("-" ++ r))
      by (apply hex_group_spec; exists a; auto).
    rewrite Hg. reflexivity.
Qed.

(** The pattern matches exactly the strings of the canonical shape. *)
Lemma uuidRegex_test_canonical (s : string) :
  uuidRegex_test s = true <-> canonical_uuid s.
Proof.
  unfold uuidRegex_test, canonical_uuid. split.
  - destruct (hex_group_dash 8 s) as [s1|] eqn:H1; [| discriminate].
    destruct (hex_group_dash 4 s1) as [s2|] eqn:H2; [| discriminate].
    destruct (hex_group_dash 4 s2) as [s3|] eqn:H3; [| discriminate].
    destruct (hex_group_dash 4 s3) as [s4|] eqn:H4; [| discriminate].
    destruct (hex_group 12 s4) as [[| ? ?]|] eqn:H5; try discriminate.
    intros _.
    apply hex_group_dash_spec in H1 as (a & -> & La & Ha).
    apply hex_group_dash_spec in H2 as (b & -> & Lb & Hb).
    apply hex_group_dash_spec in H3 as (c & -> & Lc & Hc).
    apply hex_group_dash_spec in H4 as (d & -> & Ld & Hd).
    apply hex_group_spec in H5 as (e & -> & Le & He).
    rewrite append_empty_r. exists a, b, c, d, e. repeat split; assumption.
  - intros (a & b & c & d & e & -> & La & Lb & Lc & Ld & Le & Ha & Hb & Hc & Hd & He).
    rewrite (proj2 (hex_group_dash_spec 8 _ _) (ex_intro _ a (conj eq_refl (conj La Ha)))).
    rewrite (proj2 (hex_group_dash_spec 4 _ _) (ex_intro _ b (conj eq_refl (conj Lb Hb)))).
    rewrite (proj2 (hex_group_dash_spec 4 _ _) (ex_intro _ c (conj eq_refl (conj Lc Hc)))).
    rewrite (proj2 (hex_group_dash_spec 4 _ _) (ex_intro _ d (conj eq_refl (conj Ld Hd)))).
    assert (H5 : hex_group 12 e = Some "").
    { apply hex_group_spec. exists e. rewrite append_empty_r. auto. }
    rewrite H5. reflexivity.
Qed.

(** [deletePoll] on an id whose sanitised form has not the canonical
    shape: the call is refused with "Invalid poll ID" (blank id) or
    "Invalid poll ID format", and no request is sent. *)
Lemma deletePoll_requires_canonical_id (env : Env) (id : string) (w : World) :
  ~ canonical_uuid (trim id) ->
  deletePoll env id w = (Failure InvalidId, w) \/
  deletePoll env id w = (Failure MalformedId, w).
Proof.
  intros H. apply ValidationClaims.deletePoll_malformed_id.
  destruct (uuidRegex_test (trim id)) eqn:E; [| reflexivity].
  apply uuidRegex_test_canonical in E. contradiction.
Qed.

(** [submitVote] applies the same test to its poll id. *)
Lemma submitVote_requires_canonical_id (env : Env) (pollId : string)
  (optionIndex : value) (w : World) :
  ~ canonical_uuid (trim pollId) ->
  snd (submitVote env pollId optionIndex w) = w /\
  exists e, fst (submitVote env pollId optionIndex w) = Failure e /\
            (e = InvalidId \/ e = InvalidOption \/ e = MalformedId).
Proof.
  intros H.
  assert (E : uuidRegex_test (trim pollId) = false).
  { destruct (uuidRegex_test (trim pollId)) eqn:E; [| reflexivity].
    apply uuidRegex_test_canonical in E. contradiction. }
  unfold submitVote. destruct (blank pollId); [eauto 6 |].
  destruct (as_number optionIndex) as [index|]; [| eauto 6].
  destruct (lt index (of_nat 0)); [eauto 6 |].
  rewrite E. cbn. eauto 6.
Qed.

End UuidShape.

Module VoteInvariant.
Import Js Db PollActions Props Steps Voting VoteChecks.

(** The row [submitVote] appends, when it appends one. *)
Lemma submitVote_votes (env : Env) (pollId : string) (optionIndex : value) (w : World) :
  votes (snd (submitVote env pollId optionIndex w)) = votes w \/
  exists index user,
    votes (snd (submitVote env pollId optionIndex w)) =
      (votes w ++ [{| vote_poll_id := trim pollId; vote_user_id := user;
                      vote_option_index := index; vote_created_at := now env |}])%list /\
    forall uid v, user = Some uid -> votes_select_fails env = false ->
                  votes_of (trim pollId) uid w <> [v].
Proof.
  run_submitVote; try (left; reflexivity);
    right; do 2 eexists; (split; [reflexivity |]);
    intros caller vote Hu Hf Hv; try discriminate;
    injection Hu as <-; unfold votes_of in Hv; cbn [votes record] in *; congruence.
Qed.

(** When the lookup of the caller's vote succeeds, [submitVote] keeps
    the invariant. *)
Lemma submitVote_keeps_one_vote_each (env : Env) (pollId : string)
  (optionIndex : value) (w : World) :
  votes_select_fails env = false ->
  one_vote_each w ->
  one_vote_each (snd (submitVote env pollId optionIndex w)).
Proof.
  intros Hsel Hinv p u. unfold votes_of.
  destruct (submitVote_votes env pollId optionIndex w)
    as [-> | (index & user & -> & Hfresh)]; [apply Hinv |].
  rewrite List.filter_app, length_app. cbn [List.filter].
  destruct (vote_of p u _) eqn:Hrow; cbn [length].
  - unfold vote_of in Hrow. cbn in Hrow.
    apply andb_true_iff in Hrow as [Hp Hu].
    destruct user as [uid|]; [| discriminate].
    apply String.eqb_eq in Hp, Hu. subst p u.
    specialize (Hinv (trim pollId) uid). unfold votes_of in *.
    destruct (List.filter (vote_of (trim pollId) uid) (votes w)) as [| v [| v' l]] eqn:Hf.
    + cbn. lia.
    + exfalso. apply (Hfresh uid v eq_refl Hsel). exact Hf.
    + cbn in Hinv. lia.
  - specialize (Hinv p u). unfold votes_of in Hinv. lia.
Qed.

(** The lookup of the caller's vote failing, its error is not looked
    at and the vote is inserted: alice, who has voted, votes again. *)
Example failed_lookup_lets_a_second_vote_in :
  let env :=
    {| auth := AuthUser (Some "alice");
       polls_select_fails := false; polls_insert_fails := false;
       polls_update_fails := false; polls_delete_fails := false;
       votes_select_fails := true; votes_insert_fails := false;
       votes_results_fails := false; votes_delete_fails := false;
       sign_in := SignedIn; new_poll_id := ""; now := "2024-01-03T00:00:00.000Z" |} in
  let again := submitVote env Sample.poll_id (VNumber (of_nat 1)) Sample.voted_world in
  length (votes_of Sample.poll_id "alice" Sample.voted_world) = 1%nat /\
  fst again = Success /\
  length (votes_of Sample.poll_id "alice" (snd again)) = 2%nat.
Proof. vm_compute. repeat split. Qed.

End VoteInvariant.

Module Scenario.
Import Js Db PollActions Props Client.

(** Bob creates "Best color?" with options Red and Blue. *)
Example create_best_color :
  let created := createPoll (Sample.env_of (Some "bob"))
                   (Sample.form "Best color?" ["Red"; " Blue "]) Sample.empty_world in
  fst created = Returns (Created (Some "9b2d7c3e-0f4a-4e5b-8c6d-1a2b3c4d5e6f")) /\
  (poll_options <$> polls (snd created) !! "9b2d7c3e-0f4a-4e5b-8c6d-1a2b3c4d5e6f")
    = Some (Some ["Red"; "Blue"]).
Proof. vm_compute. repeat split. Qed.

(** Alice votes for option 0: one vote for it is counted; she votes
    again and is refused; option 5 is refused. *)
Example vote_on_best_color :
  let first := submitVote (Sample.env_of (Some "alice")) Sample.poll_id
                 (VNumber (of_nat 0)) Sample.world in
  fst first = Success /\
  count_votes (map vote_option_index (votes (snd first))) = [(of_nat 0, 1%nat)] /\
  fst (submitVote (Sample.env_of (Some "alice")) Sample.poll_id
         (VNumber (of_nat 1)) (snd first)) = Failure DuplicateVote /\
  fst (submitVote (Sample.env_of (Some "carol")) Sample.poll_id
         (VNumber (of_nat 5)) (snd first)) = Failure InvalidOption.
Proof. vm_compute. repeat split. Qed.

(** Alice may not delete bob's poll; bob may, and the poll and its votes
    are gone. *)
Example delete_best_color :
  fst (deletePoll (Sample.env_of (Some "alice")) Sample.poll_id Sample.voted_world)
    = Failure ForbiddenDelete /\
  (let deleted := deletePoll (Sample.env_of (Some "bob")) Sample.poll_id
                    Sample.voted_world in
   fst deleted = Success /\
   polls (snd deleted) !! Sample.poll_id = None /\
   votes (snd deleted) = []).
Proof. vm_compute. repeat split. Qed.

(** A submission of the creation form that goes through replaces the
    stored token: the token just used is verified no more. *)
Example successful_creation_rotates_the_token :
  let formData := Sample.form_with_token "Best color?" ["Red"; "Blue"] "k3x9q2m7p1a" in
  let created := createAction (Sample.env_of (Some "bob")) "n5w8r4t6y0b" formData
                   Sample.storage Sample.empty_world in
  view_of created = Returns {| create_error := None; create_success := true |} /\
  storage_of created !! "pollCsrfToken" = Some "n5w8r4t6y0b" /\
  same_token (fd_csrfToken formData) (storage_of created !! "pollCsrfToken") = false.
Proof. vm_compute. repeat split. Qed.

(** The vote page hands the option's [id], a string, to [submitVote]. *)
Example vote_page_is_refused :
  let storage : gmap string string := {[ "voteCsrfToken" := "k3x9q2m7p1a" ]} in
  view_of (handleVote (Sample.env_of (Some "alice")) "n5w8r4t6y0b" Sample.poll_id
             (Some "1") "k3x9q2m7p1a" storage Sample.world)
    = {| vote_error := Some InvalidOption; vote_hasVoted := false |}.
Proof. vm_compute. reflexivity. Qed.

End Scenario.

(** ** Further properties *)

Module TextFacts.
Import Js Db PollActions Terms.

Lemma trimEnd_idem (s : string) : trimEnd (trimEnd s) = trimEnd s.
Proof.
  induction s as [| c r IH]; [reflexivity |].
  cbn [trimEnd]. destruct (trimEnd r) as [| c' r'] eqn:E.
  - destruct (is_white_space c) eqn:Hc; [reflexivity |].
    cbn [trimEnd]. rewrite Hc. reflexivity.
  - cbn [trimEnd] in *. destruct (trimEnd r') as [| c'' r''] eqn:E'.
    + destruct (is_white_space c'); [discriminate |]. rewrite IH. reflexivity.
    + rewrite IH. reflexivity.
Qed.

(** [trimEnd] keeps a first character that is no whitespace. *)
Lemma trimEnd_head (c : ascii) (r : string) :
  is_white_space c = false -> exists r', trimEnd (String c r) = String c r'.
Proof.
  intros Hc. cbn [trimEnd]. destruct (trimEnd r).
  - rewrite Hc. eauto.
  - eauto.
Qed.

Lemma trimStart_head (s : string) :
  trimStart s = "" \/
  exists c r, trimStart s = String c r /\ is_white_space c = false.
Proof.
  induction s as [| c r IH]; [left; reflexivity |].
  cbn [trimStart]. destruct (is_white_space c) eqn:Hc; [exact IH |].
  right. eauto.
Qed.

Lemma trimStart_fixed (c : ascii) (r : string) :
  is_white_space c = false -> trimStart (String c r) = String c r.
Proof. intros Hc. cbn [trimStart]. rewrite Hc. reflexivity. Qed.

(** Trimming twice is trimming once. *)
Lemma trim_idem (s : string) : trim (trim s) = trim s.
Proof.
  unfold trim. destruct (trimStart_head s) as [-> | (c & r & -> & Hc)]; [reflexivity |].
  destruct (trimEnd_head c r Hc) as [r' E]. rewrite E.
  rewrite (trimStart_fixed c r' Hc), <- E. apply trimEnd_idem.
Qed.

Lemma blank_trim (s : string) : blank s = String.eqb (trim s) "".
Proof.
  unfold blank. destruct s; [reflexivity |]. reflexivity.
Qed.

Lemma blank_false_trimmed (s : string) : blank s = false -> trimmed (trim s).
Proof.
  rewrite blank_trim. intros H. split; [| apply trim_idem].
  apply String.eqb_neq. exact H.
Qed.

(** What [sanitized_options] returns is trimmed. *)
Lemma sanitized_options_trimmed (formData : FormData) :
  Forall trimmed (sanitized_options formData).
Proof.
  unfold sanitized_options.
  induction (fd_options formData) as [| opt rest IH]; [constructor |].
  cbn [map List.filter]. destruct opt as [s |]; cbn [String.eqb negb]; [| exact IH].
  destruct (String.eqb (trim s) "") eqn:E; cbn [negb]; [exact IH |].
  constructor; [| exact IH]. split; [apply String.eqb_neq; exact E | apply trim_idem].
Qed.

Lemma map_trim_trimmed (l : list string) : Forall trimmed l -> map trim l = l.
Proof.
  induction 1 as [| s l [_ Hs] _ IH]; [reflexivity |].
  cbn [map]. rewrite Hs, IH. reflexivity.
Qed.

Lemma remove_dups_length (l : list string) : (length (remove_dups l) <= length l)%nat.
Proof.
  induction l as [| x l IH]; [reflexivity |].
  cbn [remove_dups]. destruct (decide_rel elem_of x l); cbn [length]; lia.
Qed.

(** The [Set] built from a list has as many members as the list exactly
    when no value occurs twice. *)
Lemma set_size_NoDup (l : list string) : set_size l = length l <-> NoDup l.
Proof.
  unfold set_size. induction l as [| x l IH].
  - split; [constructor | reflexivity].
  - cbn [remove_dups]. destruct (decide_rel elem_of x l) as [Hin | Hout].
    + split.
      * intros H. pose proof (remove_dups_length l). cbn [length] in H. lia.
      * intros H. apply NoDup_cons in H as [H _]. contradiction.
    + cbn [length]. split.
      * intros H. apply NoDup_cons. split; [exact Hout |]. apply IH. lia.
      * intros H. apply NoDup_cons in H as [_ H]. apply IH in H. lia.
Qed.

End TextFacts.

Module Creation.
Import Js Db PollActions Props Terms TextFacts.

(** [create_input_ok] in words. *)
Lemma create_input_ok_spec (formData : FormData) :
  create_input_ok formData = true <->
  exists question,
    fd_question formData = Some (FString question) /\
    blank question = false /\
    (2 <= length (sanitized_options formData) <= 20)%nat /\
    NoDup (sanitized_options formData).
Proof.
  unfold create_input_ok. split.
  - destruct (fd_question formData) as [[question |] |]; try discriminate.
    intros H. apply andb_true_iff in H as [H H20].
    apply andb_true_iff in H as [H Hset]. apply andb_true_iff in H as [Hq H2].
    apply negb_true_iff in Hq, H2, H20.
    apply Nat.ltb_ge in H2, H20. apply Nat.eqb_eq in Hset.
    exists question. repeat split; try assumption. apply set_size_NoDup. exact Hset.
  - intros (question & -> & Hq & [H2 H20] & Hnd).
    rewrite Hq. apply set_size_NoDup in Hnd. rewrite Hnd, Nat.eqb_refl.
    apply Nat.ltb_ge in H2, H20. rewrite H2, H20. reflexivity.
Qed.

Lemma createPoll_created_iff (env : Env) (formData : FormData) (w : World) (id : string) :
  fst (createPoll env formData w) = Returns (Created (Some id)) <->
  create_input_ok formData = true /\
  (exists uid, auth env = AuthUser (Some uid)) /\
  polls_insert_fails env = false /\
  polls w !! new_poll_id env = None /\
  id = new_poll_id env.
Proof.
  unfold createPoll, create_input_ok, getUser, polls_insert.
  destruct (fd_question formData) as [[question |] |]; cbn [fst];
    try (split; [discriminate | intros (H & _); discriminate]).
  destruct (blank question); cbn [negb andb];
    [split; [discriminate | intros (H & _); discriminate] |].
  destruct (length (sanitized_options formData) <? 2)%nat; cbn [negb andb];
    [split; [discriminate | intros (H & _); discriminate] |].
  destruct (set_size (sanitized_options formData) =? length (sanitized_options formData))%nat;
    cbn [negb andb]; [| split; [discriminate | intros (H & _); discriminate]].
  destruct (20 <? length (sanitized_options formData))%nat; cbn [negb];
    [split; [discriminate | intros (H & _); discriminate] |].
  destruct (auth env) as [[uid |] | |]; cbn [fst];
    try (split; [discriminate | intros (_ & (u & Hu) & _); discriminate]).
  destruct (polls_insert_fails env); cbn [fst];
    [split; [discriminate | intros (_ & _ & H & _); discriminate] |].
  cbn [polls record].
  destruct (polls w !! new_poll_id env); cbn [fst].
  - split; [discriminate | intros (_ & _ & _ & H & _); discriminate].
  - split.
    + intros H. injection H as <-. eauto 10.
    + intros (_ & _ & _ & _ & ->). reflexivity.
Qed.

(** X1.  [createPoll] returns [{ error: null, pollId }] exactly when
    the question is a text that is not blank, the sanitised options are
    between two and twenty and all different, the caller is
    authenticated, the insert succeeds and the key the store draws is
    free; [pollId] is then that key. *)
Theorem createPoll_succeeds_iff (env : Env) (formData : FormData) (w : World) (id : string) :
  fst (createPoll env formData w) = Returns (Created (Some id)) <->
  (exists question,
      fd_question formData = Some (FString question) /\
      blank question = false /\
      (2 <= length (sanitized_options formData) <= 20)%nat /\
      NoDup (sanitized_options formData)) /\
  (exists uid, auth env = AuthUser (Some uid)) /\
  polls_insert_fails env = false /\
  polls w !! new_poll_id env = None /\
  id = new_poll_id env.
Proof. rewrite createPoll_created_iff, create_input_ok_spec. reflexivity. Qed.

(** The row [createPoll] inserts. *)
Lemma createPoll_stores (env : Env) (formData : FormData) (w : World) (id : string) :
  fst (createPoll env formData w) = Returns (Created (Some id)) ->
  exists uid question,
    fd_question formData = Some (FString question) /\
    blank question = false /\
    (2 <= length (sanitized_options formData) <= 20)%nat /\
    NoDup (sanitized_options formData) /\
    auth env = AuthUser (Some uid) /\
    polls w !! id = None /\
    votes (snd (createPoll env formData w)) = votes w /\
    polls (snd (createPoll env formData w)) =
      <[id := {| poll_user_id := uid;
                 poll_question := trim question;
                 poll_options := Some (sanitized_options formData);
                 poll_created_at := now env |}]> (polls w).
Proof.
  intros Hcreated.
  pose proof (proj1 (createPoll_created_iff env formData w id) Hcreated)
    as (Hok & (uid & Hauth) & Hins & Hfree & ->).
  apply create_input_ok_spec in Hok as (question & Hq & Hblank & [H2 H20] & Hnd).
  pose proof (proj2 (set_size_NoDup _) Hnd) as Hset.
  apply Nat.ltb_ge in H2 as H2', H20 as H20'.
  exists uid, question.
  split; [exact Hq |]. split; [exact Hblank |]. split; [lia |]. split; [exact Hnd |].
  split; [exact Hauth |]. split; [exact Hfree |].
  unfold createPoll, getUser, polls_insert.
  rewrite Hq, Hblank, H2', Hset, Nat.eqb_refl, H20', Hauth, Hins. cbn [negb polls record].
  rewrite Hfree. cbn [fst snd polls votes set_polls record].
  rewrite (map_trim_trimmed _ (sanitized_options_trimmed formData)).
  split; reflexivity.
Qed.

(** A row made of a trimmed question and sanitised options that pass
    the checks is well formed. *)
Lemma sanitised_row_well_formed (uid question created : string) (formData : FormData) :
  blank question = false ->
  (2 <= length (sanitized_options formData) <= 20)%nat ->
  NoDup (sanitized_options formData) ->
  well_formed {| poll_user_id := uid;
                 poll_question := trim question;
                 poll_options := Some (sanitized_options formData);
                 poll_created_at := created |}.
Proof.
  intros Hblank Hlen Hnd. split; [apply blank_false_trimmed; exact Hblank |].
  exists (sanitized_options formData).
  split; [reflexivity |]. split; [exact Hlen |]. split; [exact Hnd |].
  apply sanitized_options_trimmed.
Qed.

(** X2.  The poll [createPoll] stores: it belongs to the caller, is
    stamped with the current time and is well formed; it is added
    under a key that was free, the other polls and all votes staying
    as they were. *)
Theorem created_poll_is_well_formed (env : Env) (formData : FormData) (w : World)
  (id : string) :
  fst (createPoll env formData w) = Returns (Created (Some id)) ->
  exists row,
    polls w !! id = None /\
    polls (snd (createPoll env formData w)) = <[id := row]> (polls w) /\
    votes (snd (createPoll env formData w)) = votes w /\
    auth env = AuthUser (Some (poll_user_id row)) /\
    poll_created_at row = now env /\
    well_formed row.
Proof.
  intros Hcreated.
  destruct (createPoll_stores env formData w id Hcreated)
    as (uid & question & _ & Hblank & Hlen & Hnd & Hauth & Hfree & Hvotes & Hpolls).
  eexists. split; [exact Hfree |]. split; [exact Hpolls |]. split; [exact Hvotes |].
  split; [exact Hauth |]. split; [reflexivity |].
  apply sanitised_row_well_formed; assumption.
Qed.

Lemma created_poll_is_well_formed_witness :
  exists row,
    polls (snd (createPoll (Sample.env_of (Some "bob"))
                  (Sample.form " Best color? " ["Red"; " Blue "; ""]) Sample.empty_world))
      = <[ new_poll_id (Sample.env_of (Some "bob")) := row ]> (polls Sample.empty_world) /\
    well_formed row.
Proof.
  destruct (created_poll_is_well_formed (Sample.env_of (Some "bob"))
              (Sample.form " Best color? " ["Red"; " Blue "; ""]) Sample.empty_world
              (new_poll_id (Sample.env_of (Some "bob"))))
    as (row & _ & Hp & _ & _ & _ & Hwf).
  - vm_compute. reflexivity.
  - exists row. split; assumption.
Defined.

(** X3.  Input that fails a check of [createPoll] is refused before
    any request is sent: the world, journal included, is what it
    was. *)
Theorem createPoll_rejects_before_any_request (env : Env) (formData : FormData) (w : World) :
  create_input_ok formData = false ->
  refused (fst (createPoll env formData w)) /\
  snd (createPoll env formData w) = w.
Proof.
  unfold createPoll, create_input_ok, refused.
  destruct (fd_question formData) as [[question |] |]; cbn [fst snd]; eauto.
  destruct (blank question); cbn [negb andb fst snd]; eauto.
  destruct (length (sanitized_options formData) <? 2)%nat; cbn [negb andb fst snd]; eauto.
  destruct (set_size (sanitized_options formData) =? length (sanitized_options formData))%nat;
    cbn [negb andb fst snd]; eauto.
  destruct (20 <? length (sanitized_options formData))%nat; cbn [negb fst snd]; eauto.
  discriminate.
Qed.

Lemma createPoll_rejects_before_any_request_witness :
  snd (createPoll (Sample.env_of (Some "bob")) (Sample.form "Best color?" ["Red"; " Red "])
         Sample.world) = Sample.world.
Proof.
  apply (createPoll_rejects_before_any_request (Sample.env_of (Some "bob"))
           (Sample.form "Best color?" ["Red"; " Red "]) Sample.world).
  vm_compute. reflexivity.
Defined.

(** X4.  Options of which two are the same once trimmed, under a
    question that is not blank and the options being two at least:
    [createPoll] and [updatePoll] both answer "All options must be
    unique" and leave the world as it was. *)
Theorem duplicate_options_are_refused (env : Env) (pollId question : string)
  (formData : FormData) (w : World) :
  fd_question formData = Some (FString question) ->
  blank question = false ->
  blank pollId = false ->
  (2 <= length (sanitized_options formData))%nat ->
  ~ NoDup (sanitized_options formData) ->
  createPoll env formData w = (Returns (Failure DuplicateOptions), w) /\
  updatePoll env pollId formData w = (Returns (Failure DuplicateOptions), w).
Proof.
  intros Hq Hblank Hid H2 Hdup.
  assert (Hset : (set_size (sanitized_options formData) =?
                  length (sanitized_options formData))%nat = false).
  { apply Nat.eqb_neq. intros H. apply Hdup, set_size_NoDup, H. }
  apply Nat.ltb_ge in H2.
  unfold createPoll, updatePoll. rewrite Hq, Hblank, Hid, H2, Hset. split; reflexivity.
Qed.

Lemma duplicate_options_are_refused_witness :
  createPoll (Sample.env_of (Some "bob")) (Sample.form "Best color?" ["Red"; "Blue"; " Red "])
    Sample.world = (Returns (Failure DuplicateOptions), Sample.world).
Proof.
  apply (duplicate_options_are_refused (Sample.env_of (Some "bob")) Sample.poll_id
           "Best color?" (Sample.form "Best color?" ["Red"; "Blue"; " Red "]) Sample.world);
    try reflexivity.
  - vm_compute. lia.
  - intros H. apply set_size_NoDup in H. vm_compute in H. discriminate.
Defined.

End Creation.

Module Mutation.
Import Js Db PollActions Props Terms TextFacts Steps.

(** What [updatePoll] does to the tables: nothing, or, for the owner,
    the question and the options of the poll are replaced. *)
Lemma updatePoll_tables (env : Env) (pollId : string) (formData : FormData) (w : World) :
  votes (snd (updatePoll env pollId formData w)) = votes w /\
  ((polls (snd (updatePoll env pollId formData w)) = polls w /\
    fst (updatePoll env pollId formData w) <> Returns Done) \/
   exists row question,
     fst (updatePoll env pollId formData w) = Returns Done /\
     update_input_ok pollId formData = true /\
     fd_question formData = Some (FString question) /\
     polls w !! pollId = Some row /\
     auth env = AuthUser (Some (poll_user_id row)) /\
     polls (snd (updatePoll env pollId formData w)) =
       <[pollId := {| poll_user_id := poll_user_id row;
                      poll_question := trim question;
                      poll_options := Some (map trim (sanitized_options formData));
                      poll_created_at := poll_created_at row |}]> (polls w)).
Proof.
  unfold updatePoll, update_input_ok, getUser, polls_select_single, polls_update.
  destruct (blank pollId); cbn [negb andb fst snd];
    [split; [reflexivity | left; split; [reflexivity | discriminate]] |].
  destruct (fd_question formData) as [[question |] |]; cbn [fst snd];
    try (split; [reflexivity | left; split; [reflexivity | discriminate]]).
  destruct (blank question); cbn [negb andb fst snd];
    [split; [reflexivity | left; split; [reflexivity | discriminate]] |].
  destruct (length (sanitized_options formData) <? 2)%nat; cbn [negb andb fst snd];
    [split; [reflexivity | left; split; [reflexivity | discriminate]] |].
  destruct (set_size (sanitized_options formData) =? length (sanitized_options formData))%nat;
    cbn [negb andb fst snd];
    [| split; [reflexivity | left; split; [reflexivity | discriminate]]].
  destruct (auth env) as [[uid |] | |] eqn:Hauth; cbn [fst snd];
    try (split; [reflexivity | left; split; [reflexivity | discriminate]]).
  destruct (polls_select_fails env); cbn [fst snd polls record];
    [split; [reflexivity | left; split; [reflexivity | discriminate]] |].
  destruct (polls w !! pollId) as [row |] eqn:Hrow; cbn [fst snd];
    [| split; [reflexivity | left; split; [reflexivity | discriminate]]].
  destruct (String.eqb (poll_user_id row) uid) eqn:Hown; cbn [negb fst snd];
    [| split; [reflexivity | left; split; [reflexivity | discriminate]]].
  apply String.eqb_eq in Hown. subst uid.
  destruct (polls_update_fails env); cbn [negb fst snd polls record];
    [split; [reflexivity | left; split; [reflexivity | discriminate]] |].
  cbn [negb fst snd polls votes set_polls record].
  split; [reflexivity |]. right. exists row, question. auto 10.
Qed.

(** X5.  [updatePoll] creates no poll and deletes none, and of the
    polls it changes neither the owner nor the time of creation; a poll
    under another key than the one named is not changed at all, and no
    vote is. *)
Theorem updatePoll_keeps_owner_and_creation
  (env : Env) (pollId : string) (formData : FormData) (w : World) (id : string) :
  votes (snd (updatePoll env pollId formData w)) = votes w /\
  match polls w !! id, polls (snd (updatePoll env pollId formData w)) !! id with
  | Some before, Some after =>
      poll_user_id after = poll_user_id before /\
      poll_created_at after = poll_created_at before /\
      (id = pollId \/ after = before)
  | None, None => True
  | _, _ => False
  end.
Proof.
  destruct (updatePoll_tables env pollId formData w)
    as [Hv [[Hp _] | (row & question & _ & _ & _ & Hrow & _ & Hp)]];
    (split; [exact Hv |]); rewrite Hp.
  - destruct (polls w !! id); auto.
  - destruct (decide (pollId = id)) as [-> | Hne].
    + rewrite lookup_insert_eq, Hrow. cbn. auto.
    + rewrite lookup_insert_ne by exact Hne. destruct (polls w !! id); auto.
Qed.

(** X6.  When [updatePoll] returns [{ error: null }], the caller is the
    owner of the poll, and the poll now holds the question of the
    submission, trimmed, and its sanitised options, with the owner and
    the time of creation it had; the question is not empty and the
    options are two at least, all different, none empty or padded. *)
Theorem updated_poll_is_sanitised
  (env : Env) (pollId : string) (formData : FormData) (w : World) :
  fst (updatePoll env pollId formData w) = Returns Done ->
  exists before question,
    fd_question formData = Some (FString question) /\
    polls w !! pollId = Some before /\
    auth env = AuthUser (Some (poll_user_id before)) /\
    polls (snd (updatePoll env pollId formData w)) !! pollId =
      Some {| poll_user_id := poll_user_id before;
              poll_question := trim question;
              poll_options := Some (sanitized_options formData);
              poll_created_at := poll_created_at before |} /\
    trimmed (trim question) /\
    (2 <= length (sanitized_options formData))%nat /\
    NoDup (sanitized_options formData) /\
    Forall trimmed (sanitized_options formData).
Proof.
  intros Hdone.
  destruct (updatePoll_tables env pollId formData w)
    as [_ [[_ Hno] | (row & question & _ & Hok & Hq & Hrow & Hauth & Hp)]];
    [contradiction |].
  unfold update_input_ok in Hok. rewrite Hq in Hok.
  apply andb_true_iff in Hok as [_ Hok].
  apply andb_true_iff in Hok as [Hok Hset]. apply andb_true_iff in Hok as [Hblank H2].
  apply negb_true_iff in Hblank, H2. apply Nat.ltb_ge in H2. apply Nat.eqb_eq in Hset.
  exists row, question.
  split; [exact Hq |]. split; [exact Hrow |]. split; [exact Hauth |].
  split.
  { rewrite Hp, lookup_insert_eq.
    rewrite (map_trim_trimmed _ (sanitized_options_trimmed formData)). reflexivity. }
  split; [apply blank_false_trimmed; exact Hblank |].
  split; [exact H2 |]. split; [apply set_size_NoDup; exact Hset |].
  apply sanitized_options_trimmed.
Qed.

(** Bob rewrites his poll with padded texts and an empty option. *)
Lemma updated_poll_is_sanitised_witness :
  polls (snd (updatePoll (Sample.env_of (Some "bob")) Sample.poll_id
                (Sample.form " Best colour? " [" Red"; "Green "; " "]) Sample.world))
    !! Sample.poll_id =
  Some {| poll_user_id := "bob";
          poll_question := "Best colour?";
          poll_options := Some ["Red"; "Green"];
          poll_created_at := poll_created_at Sample.best_color |}.
Proof.
  destruct (updated_poll_is_sanitised (Sample.env_of (Some "bob")) Sample.poll_id
              (Sample.form " Best colour? " [" Red"; "Green "; " "]) Sample.world)
    as (before & question & Hq & Hbefore & _ & Hafter & _).
  - vm_compute. reflexivity.
  - vm_compute in Hq, Hbefore. injection Hq as <-. injection Hbefore as <-.
    rewrite Hafter. vm_compute. reflexivity.
Defined.

(** What [deletePoll] does to the tables: nothing, or, for the owner,
    the votes on the poll are removed and then, unless its deletion
    fails, the poll. *)
Lemma deletePoll_tables (env : Env) (id : string) (w : World) :
  (fst (deletePoll env id w) <> Success /\
   polls (snd (deletePoll env id w)) = polls w /\
   votes (snd (deletePoll env id w)) = votes w) \/
  exists row,
    uuidRegex_test (trim id) = true /\
    polls w !! trim id = Some row /\
    auth env = AuthUser (Some (poll_user_id row)) /\
    votes (snd (deletePoll env id w)) =
      List.filter (fun v => negb (String.eqb (vote_poll_id v) (trim id))) (votes w) /\
    ((fst (deletePoll env id w) <> Success /\
      polls (snd (deletePoll env id w)) = polls w) \/
     (fst (deletePoll env id w) = Success /\
      polls (snd (deletePoll env id w)) = delete (trim id) (polls w))).
Proof.
  unfold deletePoll, getUser, polls_select_single, votes_delete, polls_delete.
  destruct (blank id); cbn [fst snd]; [left; repeat split; discriminate |].
  destruct (uuidRegex_test (trim id)); cbn [negb fst snd];
    [| left; repeat split; discriminate].
  destruct (auth env) as [[uid |] | |]; cbn [fst snd];
    try (left; repeat split; discriminate).
  destruct (polls_select_fails env); cbn [fst snd polls record];
    [left; repeat split; discriminate |].
  destruct (polls w !! trim id) as [row |] eqn:Hrow; cbn [fst snd];
    [| left; repeat split; discriminate].
  destruct (String.eqb (poll_user_id row) uid) eqn:Hown; cbn [negb fst snd];
    [| left; repeat split; discriminate].
  apply String.eqb_eq in Hown. subst uid.
  destruct (votes_delete_fails env); cbn [negb fst snd];
    [left; repeat split; discriminate |].
  right. exists row. split; [reflexivity |]. split; [reflexivity |]. split; [reflexivity |].
  cbn [polls votes set_votes record].
  destruct (polls_delete_fails env); cbn [negb fst snd polls votes set_votes record].
  - split; [reflexivity |]. left. split; [discriminate | reflexivity].
  - rewrite Hrow, String.eqb_refl. cbn [negb fst snd polls votes set_polls set_votes record].
    split; [reflexivity |]. right. split; reflexivity.
Qed.

(** X7.  [deletePoll] touches the poll it names and the votes on it,
    and nothing else: a poll under another key is as it was, and so are,
    in their order, the votes on other polls. *)
Theorem deletePoll_leaves_the_rest
  (env : Env) (id other : string) (w : World) :
  other <> trim id ->
  polls (snd (deletePoll env id w)) !! other = polls w !! other /\
  List.filter (fun v => String.eqb (vote_poll_id v) other)
    (votes (snd (deletePoll env id w))) =
  List.filter (fun v => String.eqb (vote_poll_id v) other) (votes w).
Proof.
  intros Hother.
  assert (Hfilter :
    List.filter (fun v => String.eqb (vote_poll_id v) other)
      (List.filter (fun v => negb (String.eqb (vote_poll_id v) (trim id))) (votes w)) =
    List.filter (fun v => String.eqb (vote_poll_id v) other) (votes w)).
  { induction (votes w) as [| v vs IH]; [reflexivity |].
    cbn [List.filter].
    destruct (String.eqb (vote_poll_id v) (trim id)) eqn:E1; cbn [negb].
    - apply String.eqb_eq in E1.
      destruct (String.eqb (vote_poll_id v) other) eqn:E2; [| exact IH].
      apply String.eqb_eq in E2. congruence.
    - cbn [List.filter]. rewrite IH. reflexivity. }
  destruct (deletePoll_tables env id w)
    as [(_ & -> & ->) | (row & _ & _ & _ & -> & [[_ ->] | [_ ->]])];
    try (split; [reflexivity | first [reflexivity | exact Hfilter]]).
  split; [| exact Hfilter]. apply lookup_delete_ne. congruence.
Qed.

Lemma deletePoll_leaves_the_rest_witness :
  polls (snd (deletePoll (Sample.env_of (Some "bob")) Sample.poll_id Sample.voted_world))
    !! "9b2d7c3e-0f4a-4e5b-8c6d-1a2b3c4d5e6f" =
  polls Sample.voted_world !! "9b2d7c3e-0f4a-4e5b-8c6d-1a2b3c4d5e6f".
Proof.
  apply (deletePoll_leaves_the_rest (Sample.env_of (Some "bob")) Sample.poll_id
           "9b2d7c3e-0f4a-4e5b-8c6d-1a2b3c4d5e6f" Sample.voted_world).
  vm_compute. discriminate.
Defined.

(** X8.  When [deletePoll] returns success, the id has the canonical
    shape once trimmed, the caller is the owner of the poll under it,
    the poll is gone and no vote on it is left. *)
Theorem deleted_poll_leaves_no_vote (env : Env) (id : string) (w : World) :
  fst (deletePoll env id w) = Success ->
  canonical_uuid (trim id) /\
  (exists row, polls w !! trim id = Some row /\
               auth env = AuthUser (Some (poll_user_id row))) /\
  polls (snd (deletePoll env id w)) = delete (trim id) (polls w) /\
  forall v, v ∈ votes (snd (deletePoll env id w)) ->
            v ∈ votes w /\ vote_poll_id v <> trim id.
Proof.
  intros Hok.
  destruct (deletePoll_tables env id w)
    as [(Hno & _) | (row & Huuid & Hrow & Hauth & Hv & [[Hno _] | [_ Hp]])];
    try contradiction.
  split; [apply UuidShape.uuidRegex_test_canonical; exact Huuid |].
  split; [eauto |]. split; [exact Hp |].
  intros v Hin. rewrite Hv in Hin.
  apply list_elem_of_In, List.filter_In in Hin as [Hin Hne].
  split; [apply list_elem_of_In; exact Hin |].
  apply negb_true_iff, String.eqb_neq in Hne. exact Hne.
Qed.

Lemma deleted_poll_leaves_no_vote_witness :
  polls (snd (deletePoll (Sample.env_of (Some "bob")) Sample.poll_id Sample.voted_world))
    = delete (trim Sample.poll_id) (polls Sample.voted_world).
Proof.
  destruct (deleted_poll_leaves_no_vote (Sample.env_of (Some "bob")) Sample.poll_id
              Sample.voted_world) as (_ & _ & Hp & _).
  - vm_compute. reflexivity.
  - exact Hp.
Defined.

(** X9.  A call of [updatePoll] or [deletePoll] that changes a table
    was made by the authenticated owner of the poll it names. *)
Theorem only_the_owner_writes
  (env : Env) (id pollId : string) (formData : FormData) (w : World) :
  (polls (snd (deletePoll env id w)) <> polls w \/
   votes (snd (deletePoll env id w)) <> votes w ->
   exists row, polls w !! trim id = Some row /\
               auth env = AuthUser (Some (poll_user_id row))) /\
  (polls (snd (updatePoll env pollId formData w)) <> polls w \/
   votes (snd (updatePoll env pollId formData w)) <> votes w ->
   exists row, polls w !! pollId = Some row /\
               auth env = AuthUser (Some (poll_user_id row))).
Proof.
  split.
  - intros Hchanged.
    destruct (deletePoll_tables env id w)
      as [(_ & Hp & Hv) | (row & _ & Hrow & Hauth & _)]; [| eauto].
    destruct Hchanged; contradiction.
  - intros Hchanged.
    destruct (updatePoll_tables env pollId formData w)
      as [Hv [[Hp _] | (row & question & _ & _ & _ & Hrow & Hauth & _)]]; [| eauto].
    destruct Hchanged; contradiction.
Qed.

Lemma only_the_owner_writes_witness :
  exists row, polls Sample.voted_world !! trim Sample.poll_id = Some row /\
              auth (Sample.env_of (Some "bob")) = AuthUser (Some (poll_user_id row)).
Proof.
  apply (proj1 (only_the_owner_writes (Sample.env_of (Some "bob")) Sample.poll_id
                  Sample.poll_id (Sample.form "Best colour?" ["Red"; "Green"])
                  Sample.voted_world)).
  right. vm_compute. discriminate.
Defined.

End Mutation.

Module Sequences.
Import Js Db PollActions Props Terms Steps Runs Mutation.

(** What [createPoll] does to the tables: nothing, or a poll is added
    under a key that was free. *)
Lemma createPoll_tables (env : Env) (formData : FormData) (w : World) :
  votes (snd (createPoll env formData w)) = votes w /\
  (polls (snd (createPoll env formData w)) = polls w \/
   exists row, polls w !! new_poll_id env = None /\
               polls (snd (createPoll env formData w)) = <[new_poll_id env := row]> (polls w)).
Proof.
  unfold createPoll, getUser, polls_insert.
  repeat (split_innermost; cbn [fst snd polls votes set_polls record]);
    (split; [reflexivity |]); try (left; reflexivity).
  right. eexists. split; [first [assumption | reflexivity] | reflexivity].
Qed.

(** [submitVote] writes to table [votes] only. *)
Lemma submitVote_polls (env : Env) (pollId : string) (optionIndex : value) (w : World) :
  polls (snd (submitVote env pollId optionIndex w)) = polls w.
Proof. run_submitVote; reflexivity. Qed.

Lemma step_keeps_foreign_poll (c : Call) (w : World) (id : string) (row : PollRow) :
  polls w !! id = Some row ->
  not_by (poll_user_id row) c ->
  polls (step w c) !! id = Some row.
Proof.
  intros Hrow Hnot. unfold not_by in Hnot.
  destruct c as [env formData | env pollId optionIndex | env id' | env pollId formData];
    cbn [step call_env] in *.
  - destruct (createPoll_tables env formData w) as [_ [-> | (r & Hfree & ->)]];
      [exact Hrow |].
    rewrite lookup_insert_ne; [exact Hrow |]. intros E. rewrite E in Hfree. congruence.
  - rewrite submitVote_polls. exact Hrow.
  - destruct (deletePoll_tables env id' w)
      as [(_ & -> & _) | (r & _ & Hr & Hauth & _ & [[_ ->] | [_ ->]])];
      try exact Hrow.
    rewrite lookup_delete_ne; [exact Hrow |].
    intros E. rewrite E, Hrow in Hr. injection Hr as <-. contradiction.
  - destruct (updatePoll_tables env pollId formData w)
      as [_ [[-> _] | (r & q & _ & _ & _ & Hr & Hauth & ->)]]; [exact Hrow |].
    rewrite lookup_insert_ne; [exact Hrow |].
    intros E. rewrite E, Hrow in Hr. injection Hr as <-. contradiction.
Qed.

(** X10.  A poll outlives, unchanged, every sequence of calls of the
    four writing actions none of which is made by its owner: whoever
    the callers are and whatever they send, they can neither delete it,
    nor update it, nor overwrite it with a new poll. *)
Theorem poll_survives_foreign_calls
  (calls : list Call) (w : World) (id : string) (row : PollRow) :
  polls w !! id = Some row ->
  Forall (not_by (poll_user_id row)) calls ->
  polls (run calls w) !! id = Some row.
Proof.
  intros Hrow Hcalls. revert w Hrow. unfold run.
  induction Hcalls as [| c calls Hc _ IH]; intros w Hrow; [exact Hrow |].
  cbn [fold_left]. apply IH. apply step_keeps_foreign_poll; assumption.
Qed.

Lemma poll_survives_foreign_calls_witness :
  polls (run [Delete (Sample.env_of (Some "alice")) Sample.poll_id;
              Update (Sample.env_of None) Sample.poll_id
                (Sample.form "Worst color?" ["Red"; "Blue"]);
              Vote (Sample.env_of (Some "alice")) Sample.poll_id (VNumber (of_nat 0));
              Create (Sample.env_of (Some "carol")) (Sample.form "Best letter?" ["a"; "b"])]
           Sample.world) !! Sample.poll_id = Some Sample.best_color.
Proof.
  apply poll_survives_foreign_calls.
  - vm_compute. reflexivity.
  - repeat constructor; unfold not_by; cbn; discriminate.
Defined.

Lemma step_keeps_no_orphan_votes (c : Call) (w : World) :
  no_orphan_votes w -> no_orphan_votes (step w c).
Proof.
  intros Hinv.
  destruct c as [env formData | env pollId optionIndex | env id | env pollId formData];
    cbn [step]; intros v Hv.
  - destruct (createPoll_tables env formData w) as [Hvotes [Hp | (r & Hfree & Hp)]];
      rewrite Hvotes in Hv; rewrite Hp; [apply Hinv; exact Hv |].
    apply lookup_insert_is_Some'. right. apply Hinv. exact Hv.
  - rewrite submitVote_polls.
    destruct (VoteChecks.submitVote_cases env pollId optionIndex w)
      as [[_ Hsame] | (_ & _ & (index & poll & options & _ & Hpoll & _))].
    + rewrite Hsame in Hv. apply Hinv. exact Hv.
    + destruct (VoteInvariant.submitVote_votes env pollId optionIndex w)
        as [Hsame | (i & u & Happ & _)];
        [rewrite Hsame in Hv; apply Hinv; exact Hv |].
      rewrite Happ in Hv. apply elem_of_app in Hv as [Hv | Hv];
        [apply Hinv; exact Hv |].
      apply list_elem_of_singleton in Hv. subst v. cbn. rewrite Hpoll. eauto.
  - destruct (deletePoll_tables env id w)
      as [(_ & Hp & Hvotes) | (r & _ & _ & _ & Hvotes & Hp)].
    + rewrite Hvotes in Hv. rewrite Hp. apply Hinv. exact Hv.
    + rewrite Hvotes in Hv.
      apply list_elem_of_In, List.filter_In in Hv as [Hv Hne].
      apply list_elem_of_In in Hv.
      apply negb_true_iff, String.eqb_neq in Hne.
      destruct Hp as [[_ ->] | [_ ->]]; [apply Hinv; exact Hv |].
      rewrite lookup_delete_ne by congruence. apply Hinv. exact Hv.
  - destruct (updatePoll_tables env pollId formData w)
      as [Hvotes [[Hp _] | (r & q & _ & _ & _ & _ & _ & Hp)]];
      rewrite Hvotes in Hv; rewrite Hp; [apply Hinv; exact Hv |].
    apply lookup_insert_is_Some'. right. apply Hinv. exact Hv.
Qed.

(** X11.  Every sequence of calls of the four writing actions keeps
    every vote attached to a poll of table [polls]: a vote is recorded
    on a poll that exists, and [deletePoll] removes the votes on a poll
    before the poll, also when one of its two deletions fails. *)
Theorem runs_keep_votes_attached (calls : list Call) (w : World) :
  no_orphan_votes w -> no_orphan_votes (run calls w).
Proof.
  revert w. unfold run. induction calls as [| c calls IH]; intros w Hinv; [exact Hinv |].
  cbn [fold_left]. apply IH. apply step_keeps_no_orphan_votes. exact Hinv.
Qed.

Lemma runs_keep_votes_attached_witness :
  no_orphan_votes
    (run [Vote (Sample.env_of (Some "carol")) Sample.poll_id (VNumber (of_nat 1));
          Delete (Sample.env_votes_delete_fails (Some "bob")) Sample.poll_id;
          Delete (Sample.env_of (Some "bob")) Sample.poll_id]
       Sample.voted_world).
Proof.
  apply runs_keep_votes_attached.
  intros v Hv. apply list_elem_of_In in Hv. cbn in Hv.
  destruct Hv as [<- | [<- | []]]; vm_compute; eauto.
Defined.

Lemma filter_filter_length {A : Type} (f g : A -> bool) (l : list A) :
  (length (List.filter f (List.filter g l)) <= length (List.filter f l))%nat.
Proof.
  induction l as [| x l IH]; [reflexivity |].
  cbn [List.filter]. destruct (g x); cbn [List.filter]; destruct (f x); cbn [length]; lia.
Qed.

Lemma step_keeps_one_vote_each (c : Call) (w : World) :
  lookup_succeeds c -> one_vote_each w -> one_vote_each (step w c).
Proof.
  intros Hc Hinv.
  destruct c as [env formData | env pollId optionIndex | env id | env pollId formData];
    cbn [step lookup_succeeds] in *.
  - intros p u. unfold votes_of.
    rewrite (proj1 (createPoll_tables env formData w)). apply Hinv.
  - apply VoteInvariant.submitVote_keeps_one_vote_each; assumption.
  - intros p u. unfold votes_of.
    destruct (deletePoll_tables env id w)
      as [(_ & _ & ->) | (r & _ & _ & _ & -> & _)]; [apply Hinv |].
    etransitivity; [apply filter_filter_length | apply Hinv].
  - intros p u. unfold votes_of.
    rewrite (proj1 (updatePoll_tables env pollId formData w)). apply Hinv.
Qed.

(** X12.  A sequence of calls of the four writing actions in which the
    lookup of the caller's earlier vote never fails keeps the rule of
    one vote of a voter on a poll. *)
Theorem runs_keep_one_vote_each (calls : list Call) (w : World) :
  Forall lookup_succeeds calls ->
  one_vote_each w ->
  one_vote_each (run calls w).
Proof.
  intros Hcalls. revert w. unfold run.
  induction Hcalls as [| c calls Hc _ IH]; intros w Hinv; [exact Hinv |].
  cbn [fold_left]. apply IH. apply step_keeps_one_vote_each; assumption.
Qed.

Lemma runs_keep_one_vote_each_witness :
  one_vote_each
    (run [Vote (Sample.env_of (Some "alice")) Sample.poll_id (VNumber (of_nat 1));
          Vote (Sample.env_of (Some "carol")) Sample.poll_id (VNumber (of_nat 1));
          Vote (Sample.env_of (Some "carol")) Sample.poll_id (VNumber (of_nat 0))]
       Sample.world).
Proof.
  apply runs_keep_one_vote_each.
  - repeat constructor.
  - intros p u. cbn. lia.
Defined.

End Sequences.

Module Reading.
Import Js Db PollActions Props Terms PollReads Creation Mutation.

(** X13.  A poll that [createPoll] has just created is what
    [getPollById] returns for the key handed back, the lookup
    succeeding: the poll of the caller, well formed, and no error. *)
Theorem created_poll_can_be_read
  (env reader : Env) (message : string) (formData : FormData) (w : World) (id : string) :
  fst (createPoll env formData w) = Returns (Created (Some id)) ->
  polls_select_fails reader = false ->
  exists row,
    getPollById reader message id (snd (createPoll env formData w)) =
      {| reply_poll := Some (id, row); reply_error := None |} /\
    auth env = AuthUser (Some (poll_user_id row)) /\
    well_formed row.
Proof.
  intros Hcreated Hsel.
  destruct (createPoll_stores env formData w id Hcreated)
    as (uid & question & _ & Hblank & Hlen & Hnd & Hauth & _ & _ & Hp).
  exists {| poll_user_id := uid;
            poll_question := trim question;
            poll_options := Some (sanitized_options formData);
            poll_created_at := now env |}.
  split; [| split; [exact Hauth |]].
  - unfold getPollById, polls_select_single. rewrite Hsel. cbn [fst].
    rewrite Hp, lookup_insert_eq. reflexivity.
  - apply sanitised_row_well_formed; assumption.
Qed.

Lemma created_poll_can_be_read_witness :
  exists row,
    getPollById (Sample.env_of None) "no rows"
      (new_poll_id (Sample.env_of (Some "bob")))
      (snd (createPoll (Sample.env_of (Some "bob"))
              (Sample.form "Best color?" ["Red"; "Blue"]) Sample.empty_world)) =
      {| reply_poll := Some (new_poll_id (Sample.env_of (Some "bob")), row);
         reply_error := None |}.
Proof.
  destruct (created_poll_can_be_read (Sample.env_of (Some "bob")) (Sample.env_of None)
              "no rows" (Sample.form "Best color?" ["Red"; "Blue"]) Sample.empty_world
              (new_poll_id (Sample.env_of (Some "bob"))))
    as (row & Hget & _).
  - vm_compute. reflexivity.
  - reflexivity.
  - exists row. exact Hget.
Defined.

(** X14.  After [deletePoll] has returned success, [getPollById] on
    the sanitised id finds no poll and returns the error of the
    store. *)
Theorem deleted_poll_cannot_be_read
  (env reader : Env) (message id : string) (w : World) :
  fst (deletePoll env id w) = Success ->
  getPollById reader message (trim id) (snd (deletePoll env id w)) =
    {| reply_poll := None; reply_error := Some message |}.
Proof.
  intros Hok.
  destruct (deletePoll_tables env id w)
    as [(Hno & _) | (row & _ & _ & _ & _ & [[Hno _] | [_ Hp]])]; try contradiction.
  unfold getPollById, polls_select_single.
  destruct (polls_select_fails reader); cbn [fst]; [reflexivity |].
  rewrite Hp, lookup_delete_eq. reflexivity.
Qed.

Lemma deleted_poll_cannot_be_read_witness :
  getPollById (Sample.env_of None) "no rows" (trim Sample.poll_id)
    (snd (deletePoll (Sample.env_of (Some "bob")) Sample.poll_id Sample.voted_world)) =
    {| reply_poll := None; reply_error := Some "no rows" |}.
Proof.
  apply deleted_poll_cannot_be_read. vm_compute. reflexivity.
Defined.

Lemma elem_of_owned (uid id : string) (row : PollRow) (w : World) :
  (id, row) ∈ List.filter (fun p => String.eqb (poll_user_id (snd p)) uid)
                (map_to_list (polls w)) <->
  polls w !! id = Some row /\ poll_user_id row = uid.
Proof.
  rewrite list_elem_of_In, List.filter_In, <- list_elem_of_In, elem_of_map_to_list.
  cbn [snd]. rewrite String.eqb_eq. reflexivity.
Qed.

(** X15.  Whatever the environment, every poll [getUserPolls] returns
    is a poll of table [polls] whose owner is the authenticated caller;
    without an authenticated caller it returns none. *)
Theorem getUserPolls_lists_own_polls_only
  (env : Env) (message : string) (w : World) (reply : PollsReply)
  (id : string) (row : PollRow) :
  getUserPolls env message w = Returns reply ->
  (id, row) ∈ reply_polls reply ->
  polls w !! id = Some row /\ auth env = AuthUser (Some (poll_user_id row)).
Proof.
  unfold getUserPolls, getUser, polls_select_by_user. cbn [fst].
  destruct (auth env) as [[uid |] | |]; try discriminate;
    try (intros H; injection H as <-; cbn; intros Hin; inversion Hin).
  destruct (polls_select_fails env);
    intros H; injection H as <-; cbn [reply_polls]; intros Hin; [inversion Hin |].
  rewrite merge_sort_Permutation in Hin.
  apply elem_of_owned in Hin as [Hrow <-]. split; [exact Hrow | reflexivity].
Qed.

Lemma getUserPolls_lists_own_polls_only_witness :
  polls Sample.world !! Sample.poll_id = Some Sample.best_color /\
  auth (Sample.env_of (Some "bob")) = AuthUser (Some (poll_user_id Sample.best_color)).
Proof.
  apply (getUserPolls_lists_own_polls_only (Sample.env_of (Some "bob")) "no rows"
           Sample.world
           {| reply_polls := [(Sample.poll_id, Sample.best_color)];
              reply_polls_error := None |}).
  - vm_compute. reflexivity.
  - cbn. apply list_elem_of_here.
Defined.

(** X16.  For an authenticated caller, the request succeeding,
    [getUserPolls] returns no error and a list that holds the polls of
    the caller, each of them once, and no other poll. *)
Theorem getUserPolls_lists_every_own_poll
  (env : Env) (message uid : string) (w : World) :
  auth env = AuthUser (Some uid) ->
  polls_select_fails env = false ->
  exists listed,
    getUserPolls env message w =
      Returns {| reply_polls := listed; reply_polls_error := None |} /\
    (forall id row, (id, row) ∈ listed <->
                    polls w !! id = Some row /\ poll_user_id row = uid) /\
    NoDup listed.
Proof.
  intros Hauth Hsel.
  unfold getUserPolls, getUser, polls_select_by_user. cbn [fst].
  rewrite Hauth, Hsel. eexists. split; [reflexivity |]. split.
  - intros id row. rewrite merge_sort_Permutation. apply elem_of_owned.
  - rewrite merge_sort_Permutation.
    apply NoDup_ListNoDup, List.NoDup_filter, NoDup_ListNoDup, NoDup_map_to_list.
Qed.

(** Bob, who has two of three polls, is shown the two and not alice's. *)
Lemma getUserPolls_lists_every_own_poll_witness :
  exists listed,
    getUserPolls (Sample.env_of (Some "bob")) "no rows" Faults.three_polls =
      Returns {| reply_polls := listed; reply_polls_error := None |} /\
    length listed = 2%nat /\
    NoDup listed /\
    (Sample.poll_id, Sample.best_color) ∈ listed /\
    ("0a1b2c3d-4e5f-4a6b-8c7d-9e0f1a2b3c4d", Faults.best_letter) ∈ listed /\
    ("5f6e7d8c-9b0a-4c1d-8e2f-3a4b5c6d7e8f", Faults.best_day) ∉ listed.
Proof.
  destruct (getUserPolls_lists_every_own_poll (Sample.env_of (Some "bob")) "no rows" "bob"
              Faults.three_polls eq_refl eq_refl) as (listed & Hget & Hall & Hnd).
  exists listed. split; [exact Hget |].
  split; [vm_compute in Hget; injection Hget as <-; reflexivity |].
  split; [exact Hnd |].
  split; [apply Hall; split; [vm_compute |]; reflexivity |].
  split; [apply Hall; split; [vm_compute |]; reflexivity |].
  intros Hin. apply Hall in Hin as [_ Hown]. discriminate.
Defined.

End Reading.

Module Accounts.
Import Js Db PollActions AuthActions Registration Terms TextFacts.

Lemma length_toLowerCase (s : string) : String.length (toLowerCase s) = String.length s.
Proof. induction s as [| c s IH]; [reflexivity |]. cbn. rewrite IH. reflexivity. Qed.

Lemma lower_idem (c : ascii) : lower (lower c) = lower c.
Proof. destruct c as [[] [] [] [] [] [] [] []]; reflexivity. Qed.

Lemma lower_white_space (c : ascii) : is_white_space (lower c) = is_white_space c.
Proof. destruct c as [[] [] [] [] [] [] [] []]; reflexivity. Qed.

Lemma toLowerCase_idem (s : string) : toLowerCase (toLowerCase s) = toLowerCase s.
Proof.
  induction s as [| c s IH]; [reflexivity |].
  cbn [toLowerCase]. rewrite lower_idem, IH. reflexivity.
Qed.

Lemma trimStart_toLowerCase (s : string) :
  trimStart (toLowerCase s) = toLowerCase (trimStart s).
Proof.
  induction s as [| c s IH]; [reflexivity |].
  cbn [toLowerCase trimStart]. rewrite lower_white_space.
  destruct (is_white_space c); [exact IH | reflexivity].
Qed.

Lemma trimEnd_toLowerCase (s : string) :
  trimEnd (toLowerCase s) = toLowerCase (trimEnd s).
Proof.
  induction s as [| c s IH]; [reflexivity |].
  cbn [toLowerCase trimEnd]. rewrite IH, lower_white_space.
  destruct (trimEnd s); cbn [toLowerCase]; [destruct (is_white_space c) |]; reflexivity.
Qed.

(** Lower-casing and trimming commute. *)
Lemma trim_toLowerCase (s : string) : trim (toLowerCase s) = toLowerCase (trim s).
Proof. unfold trim. rewrite trimStart_toLowerCase, trimEnd_toLowerCase. reflexivity. Qed.

Lemma toLowerCase_empty (s : string) : toLowerCase s = "" -> s = "".
Proof. destruct s; [reflexivity | discriminate]. Qed.

(** X17.  When [register] sends a request to the identity service,
    the three fields were filled in, the password has eight characters
    at least and is, in lower case, none of the common passwords; the
    request carries the e-mail address trimmed and in lower case, the
    password as typed and the name trimmed. *)
Theorem register_request_is_vetted
  (reply : SignUpReply) (email password name : string) (request : SignUpRequest) :
  snd (register reply email password name) = Some request ->
  email <> "" /\ password <> "" /\ name <> "" /\
  (8 <= String.length password)%nat /\
  ~ In (toLowerCase password) commonPasswords /\
  request = {| su_email := toLowerCase (trim email);
               su_password := password;
               su_name := trim name |}.
Proof.
  unfold register.
  destruct (String.eqb email "") eqn:He; [discriminate |].
  destruct (String.eqb password "") eqn:Hp; [discriminate |].
  destruct (String.eqb name "") eqn:Hn; [discriminate |].
  cbn [orb].
  destruct (String.length password <? 8)%nat eqn:Hlen; [discriminate |].
  destruct (existsb (String.eqb (toLowerCase password)) commonPasswords) eqn:Hcommon;
    [discriminate |].
  intros Hreq.
  apply String.eqb_neq in He, Hp, Hn. apply Nat.ltb_ge in Hlen.
  split; [exact He |]. split; [exact Hp |]. split; [exact Hn |]. split; [exact Hlen |].
  split.
  - intros Hin.
    assert (Hex : existsb (String.eqb (toLowerCase password)) commonPasswords = true).
    { apply existsb_exists. exists (toLowerCase password).
      split; [exact Hin | apply String.eqb_refl]. }
    congruence.
  - destruct reply as [| message |]; cbn [snd] in Hreq;
      [| destruct (includes message "already registered") |];
      cbn [snd] in Hreq; injection Hreq as <-; reflexivity.
Qed.

Lemma register_request_is_vetted_witness :
  (8 <= String.length "Passw0rd!")%nat /\ ~ In (toLowerCase "Passw0rd!") commonPasswords.
Proof.
  destruct (register_request_is_vetted SignedUp " Bob@Example.ORG " "Passw0rd!" " Bob "
              {| su_email := "bob@example.org"; su_password := "Passw0rd!";
                 su_name := "Bob" |})
    as (_ & _ & _ & Hlen & Hcommon & _).
  - vm_compute. reflexivity.
  - split; assumption.
Defined.

(** X18.  A password that is, whatever the case of its letters, one of
    the common passwords is refused with "Please use a stronger
    password", and nothing is sent to the identity service. *)
Theorem common_password_is_refused_in_any_case
  (reply : SignUpReply) (email password name : string) :
  email <> "" -> name <> "" ->
  In (toLowerCase password) commonPasswords ->
  register reply email password name = (Failure "Please use a stronger password", None).
Proof.
  intros He Hn Hin. unfold register.
  apply String.eqb_neq in He, Hn. rewrite He, Hn.
  assert (Hlen : (8 <= String.length password)%nat).
  { rewrite <- length_toLowerCase.
    destruct Hin as [<- | [<- | [<- | []]]]; cbn; lia. }
  assert (Hp : String.eqb password "" = false).
  { apply String.eqb_neq. intros ->. cbn in Hlen. lia. }
  rewrite Hp. cbn [orb]. apply Nat.ltb_ge in Hlen. rewrite Hlen.
  assert (Hex : existsb (String.eqb (toLowerCase password)) commonPasswords = true).
  { apply existsb_exists. exists (toLowerCase password).
    split; [exact Hin | apply String.eqb_refl]. }
  rewrite Hex. reflexivity.
Qed.

Lemma common_password_is_refused_witness :
  register SignedUp "bob@example.org" "QwErTy123" "Bob" =
    (Failure "Please use a stronger password", None).
Proof.
  apply common_password_is_refused_in_any_case; try discriminate.
  vm_compute. auto.
Defined.

(** X19.  [register] hands no text of the identity service on: its
    answer is [{ error: null }] or one of six messages of its own, and
    two errors of the service that both mention, or both do not
    mention, "already registered" get the same answer. *)
Theorem register_hides_the_service_error
  (reply : SignUpReply) (email password name message1 message2 : string) :
  In (fst (register reply email password name))
     [Done;
      Failure "All fields are required";
      Failure "Password must be at least 8 characters long";
      Failure "Please use a stronger password";
      Failure "This email is already registered";
      Failure "Registration failed. Please try again.";
      Failure Unexpected] /\
  (includes message1 "already registered" = includes message2 "already registered" ->
   register (SignUpError message1) email password name =
   register (SignUpError message2) email password name).
Proof.
  unfold register. split.
  - destruct (_ || _); [cbn; auto |].
    destruct (_ <? _)%nat; [cbn; auto |].
    destruct (existsb _ _); [cbn; auto |].
    destruct reply as [| message |]; [| destruct (includes message _) |]; cbn; auto 10.
  - intros ->. reflexivity.
Qed.

Lemma register_hides_the_service_error_witness :
  register (SignUpError "User already registered") "bob@example.org" "Passw0rd!" "Bob" =
  register (SignUpError "already registered: bob@example.org (id 42)")
    "bob@example.org" "Passw0rd!" "Bob".
Proof.
  apply (proj2 (register_hides_the_service_error SignedUp "bob@example.org" "Passw0rd!" "Bob"
                  "User already registered"
                  "already registered: bob@example.org (id 42)")).
  vm_compute. reflexivity.
Defined.

(** X20.  [login] and [register] take an e-mail address up to the case
    of its letters and the whitespace around it: with the address
    trimmed and in lower case in place of the address as typed, which is
    not blank, they send the same request and give the same answer. *)
Theorem email_is_taken_up_to_case_and_padding
  (env : Env) (reply : SignUpReply) (email password name : string) (w : World) :
  blank email = false ->
  login env (toLowerCase (trim email)) password w = login env email password w /\
  register reply (toLowerCase (trim email)) password name =
    register reply email password name.
Proof.
  intros Hblank.
  assert (Hnorm : toLowerCase (trim (toLowerCase (trim email))) = toLowerCase (trim email))
    by (rewrite trim_toLowerCase, trim_idem; apply toLowerCase_idem).
  assert (He : String.eqb email "" = false).
  { apply String.eqb_neq. intros ->. discriminate. }
  assert (Hm : String.eqb (toLowerCase (trim email)) "" = false).
  { apply String.eqb_neq. intros H. apply toLowerCase_empty in H.
    rewrite blank_trim, H in Hblank. discriminate. }
  unfold login, register. rewrite He, Hm, Hnorm. split; reflexivity.
Qed.

Lemma email_is_taken_up_to_case_and_padding_witness :
  login (Sample.env_of None) "bob@example.org" "Passw0rd!" Sample.world =
  login (Sample.env_of None) " Bob@Example.ORG " "Passw0rd!" Sample.world.
Proof.
  apply (proj1 (email_is_taken_up_to_case_and_padding (Sample.env_of None) SignedUp
                  " Bob@Example.ORG " "Passw0rd!" "Bob" Sample.world eq_refl)).
Defined.

End Accounts.

Module Fields.
Import OptionFields.

Lemma filter_index_delete (idx k : nat) (opts : list string) :
  filter_index (fun i => negb (i =? idx)%nat) k opts =
  if decide (k <= idx)%nat then delete (idx - k)%nat opts else opts.
Proof.
  revert k. induction opts as [| opt rest IH]; intros k.
  - destruct (decide (k <= idx)%nat); reflexivity.
  - cbn [filter_index]. rewrite IH.
    destruct (Nat.eqb_spec k idx) as [-> | Hne]; cbn [negb].
    + destruct (decide (S idx <= idx)%nat); [lia |].
      destruct (decide (idx <= idx)%nat); [| lia].
      rewrite Nat.sub_diag. reflexivity.
    + destruct (decide (k <= idx)%nat) as [Hle | Hgt].
      * destruct (decide (S k <= idx)%nat); [| lia].
        replace (idx - k)%nat with (S (idx - S k)) by lia. reflexivity.
      * destruct (decide (S k <= idx)%nat); [lia | reflexivity].
Qed.

Lemma delete_out_of_range (idx : nat) (opts : list string) :
  (length opts <= idx)%nat -> delete idx opts = opts.
Proof.
  revert idx. induction opts as [| opt rest IH]; intros idx H; [destruct idx; reflexivity |].
  destruct idx as [| idx]; cbn in *; [lia |]. f_equal. apply IH. lia.
Qed.

(** X21.  [handleOptionChange] writes the value into the field of the
    given index and [removeOption] takes that field out, provided more
    than two fields are shown; an index that is no field's changes
    nothing. *)
Theorem option_fields_are_edited_in_place (idx : nat) (value : string)
  (options : list string) :
  handleOptionChange idx value options = <[idx := value]> options /\
  removeOption idx options =
    (if (2 <? length options)%nat then delete idx options else options) /\
  ((length options <= idx)%nat ->
   handleOptionChange idx value options = options /\ removeOption idx options = options).
Proof.
  assert (Hchange : handleOptionChange idx value options = <[idx := value]> options).
  { unfold handleOptionChange. apply list_eq. intros i.
    rewrite list_lookup_imap.
    destruct (decide (i = idx)) as [-> | Hne].
    - rewrite Nat.eqb_refl. destruct (options !! idx) eqn:E.
      + cbn. symmetry. apply list_lookup_insert_eq. eapply lookup_lt_Some, E.
      + cbn. rewrite list_insert_ge; [symmetry; exact E |].
        apply lookup_ge_None. exact E.
    - rewrite list_lookup_insert_ne by congruence.
      destruct (Nat.eqb_spec i idx); [contradiction |].
      destruct (options !! i); reflexivity. }
  assert (Hremove : removeOption idx options =
            (if (2 <? length options)%nat then delete idx options else options)).
  { unfold removeOption. rewrite filter_index_delete.
    destruct (decide (0 <= idx)%nat); [| lia]. rewrite Nat.sub_0_r. reflexivity. }
  split; [exact Hchange |]. split; [exact Hremove |].
  intros Hout. rewrite Hchange, Hremove. split.
  - apply list_insert_ge. exact Hout.
  - rewrite delete_out_of_range by exact Hout. destruct (2 <? length options)%nat; reflexivity.
Qed.

Lemma option_fields_are_edited_in_place_witness :
  handleOptionChange 7 "Green" ["Red"; "Blue"; ""] = ["Red"; "Blue"; ""] /\
  removeOption 7 ["Red"; "Blue"; ""] = ["Red"; "Blue"; ""].
Proof.
  apply (option_fields_are_edited_in_place 7 "Green" ["Red"; "Blue"; ""]).
  cbn. lia.
Defined.

Lemma edit_keeps_two_fields (options : list string) (e : Edit) :
  (2 <= length options)%nat -> (2 <= length (edit options e))%nat.
Proof.
  intros H. destruct e as [idx value | | idx]; cbn [edit].
  - unfold handleOptionChange. rewrite length_imap. exact H.
  - unfold addOption. rewrite length_app. cbn. lia.
  - unfold removeOption. destruct (Nat.ltb_spec 2 (length options)); [| exact H].
    rewrite filter_index_delete. destruct (decide (0 <= idx)%nat); [| lia].
    rewrite Nat.sub_0_r.
    destruct (decide (idx < length options)%nat) as [Hin | Hout].
    + rewrite length_delete by (apply lookup_lt_is_Some; exact Hin). lia.
    + rewrite delete_out_of_range by lia. lia.
Qed.

(** X22.  Whatever the user does to the option fields of the creation
    form, in whatever order, the form shows two fields at least. *)
Theorem form_keeps_two_option_fields (es : list Edit) :
  (2 <= length (edits es))%nat.
Proof.
  unfold edits.
  assert (H : forall options, (2 <= length options)%nat ->
                              (2 <= length (fold_left edit es options))%nat).
  { induction es as [| e es IH]; intros options Hlen; [exact Hlen |].
    cbn [fold_left]. apply IH, edit_keeps_two_fields, Hlen. }
  apply H. cbn. lia.
Qed.

End Fields.

Module Handlers.
Import Js Db PollActions Props Terms TextFacts Client.

(** X23.  No submit handler gets past its token check with a token
    that is not the stored one.  The creation form and the login page
    let their server action reach the identity service or a table only
    when the token presented equals the stored one and their own checks
    have passed (the validation of the form; the e-mail pattern and a
    password that is not blank).  The vote page shows another message
    than "Please select an option" and the security message, that is
    the answer of [submitVote], only when an option is selected and the
    token it holds equals the stored one. *)
Theorem server_is_called_with_a_verified_token
  (env : Env) (newToken : string) (formData : FormData) (loginForm : LoginForm)
  (params_id : string) (selectedOption : option string) (csrfToken : string)
  (storage : Storage) (w : World) :
  (snd (createAction env newToken formData storage w) <> w ->
   same_token (fd_csrfToken formData) (storage !! "pollCsrfToken") = true /\
   validateForm formData = Returns None) /\
  (vote_error (view_of (handleVote env newToken params_id selectedOption csrfToken
                          storage w)) <> Some "Please select an option" ->
   vote_error (view_of (handleVote env newToken params_id selectedOption csrfToken
                          storage w)) <> Some SecurityValidationFailed ->
   same_token (Some (FString csrfToken)) (storage !! "voteCsrfToken") = true /\
   exists selected, selectedOption = Some selected /\ selected <> "") /\
  (snd (handleSubmit env newToken loginForm storage w) <> w ->
   same_token (lf_csrfToken loginForm) (storage !! "csrfToken") = true /\
   exists email password,
     lf_email loginForm = Some (FString email) /\ emailRegex_test email = true /\
     lf_password loginForm = Some (FString password) /\ blank password = false).
Proof.
  split; [| split].
  - unfold createAction.
    destruct (same_token (fd_csrfToken formData) (storage !! "pollCsrfToken"));
      cbn [negb snd]; [| congruence].
    destruct (validateForm formData) as [[e |] |]; cbn [snd]; try congruence.
    auto.
  - unfold handleVote, view_of.
    destruct selectedOption as [selected |]; cbn [fst vote_error]; [| congruence].
    destruct (String.eqb selected "") eqn:E; cbn [fst vote_error]; [congruence |].
    destruct (same_token _ _); cbn [negb fst vote_error]; [| congruence].
    intros _ _. split; [reflexivity |]. exists selected. split; [reflexivity |].
    apply String.eqb_neq. exact E.
  - unfold handleSubmit.
    destruct (lf_email loginForm) as [[email |] |]; cbn [snd]; try congruence.
    destruct (emailRegex_test email) eqn:Hemail; cbn [negb snd]; [| congruence].
    destruct (lf_password loginForm) as [[password |] |]; cbn [snd]; try congruence.
    destruct (blank password) eqn:Hpassword; cbn [snd]; [congruence |].
    destruct (same_token _ _); cbn [negb snd]; [| congruence].
    intros _. split; [reflexivity |]. exists email, password. auto.
Qed.

(** Bob submits the creation form, votes and logs in, each time with
    the stored token. *)
Lemma server_is_called_with_a_verified_token_witness :
  same_token (Some (FString "k3x9q2m7p1a")) (Sample.storage !! "pollCsrfToken") = true /\
  same_token (Some (FString "k3x9q2m7p1a")) (Faults.storage !! "voteCsrfToken") = true /\
  same_token (Some (FString "k3x9q2m7p1a")) (Faults.storage !! "csrfToken") = true.
Proof.
  split; [| split].
  - apply (proj1 (server_is_called_with_a_verified_token
                    (Sample.env_of (Some "bob")) "n5w8r4t6y0b"
                    (Sample.form_with_token "Best color?" ["Red"; "Blue"] "k3x9q2m7p1a")
                    {| lf_email := None; lf_password := None; lf_csrfToken := None |}
                    Sample.poll_id None "" Sample.storage Sample.empty_world)).
    vm_compute. discriminate.
  - apply (proj1 (proj2 (server_is_called_with_a_verified_token
                    (Sample.env_of (Some "bob")) "n5w8r4t6y0b"
                    (Sample.form "Best color?" ["Red"; "Blue"])
                    {| lf_email := None; lf_password := None; lf_csrfToken := None |}
                    Sample.poll_id (Some "1") "k3x9q2m7p1a" Faults.storage
                    Sample.world)));
      vm_compute; discriminate.
  - apply (proj2 (proj2 (server_is_called_with_a_verified_token
                    (Sample.env_of (Some "bob")) "n5w8r4t6y0b"
                    (Sample.form "Best color?" ["Red"; "Blue"])
                    {| lf_email := Some (FString "bob@example.org");
                       lf_password := Some (FString "Passw0rd!");
                       lf_csrfToken := Some (FString "k3x9q2m7p1a") |}
                    Sample.poll_id None "" Faults.storage Sample.world))).
    vm_compute. discriminate.
Defined.

(** The options the form keeps are, once trimmed, the options the
    server keeps. *)
Lemma validOptions_sanitized (formData : FormData) (valid : list string) :
  validOptions (fd_options formData) = Returns valid ->
  text_only formData /\ map trim valid = sanitized_options formData.
Proof.
  unfold text_only, sanitized_options. revert valid.
  induction (fd_options formData) as [| opt rest IH]; intros valid H.
  - injection H as <-. split; [constructor | reflexivity].
  - cbn [validOptions] in H. destruct opt as [s |]; [| discriminate].
    destruct (validOptions rest) as [valid' |]; [| discriminate].
    injection H as <-. destruct (IH valid' eq_refl) as [Htext Hmap].
    split; [constructor; [discriminate | exact Htext] |].
    cbn [map List.filter]. rewrite blank_trim.
    destruct (String.eqb (trim s) ""); cbn [negb map]; [exact Hmap |].
    rewrite Hmap. reflexivity.
Qed.

Lemma validOptions_text_only (formData : FormData) :
  text_only formData -> exists valid, validOptions (fd_options formData) = Returns valid.
Proof.
  unfold text_only. induction 1 as [| opt rest Hopt _ [valid IH]]; [eexists; reflexivity |].
  destruct opt as [s |]; [| contradiction].
  cbn [validOptions]. rewrite IH. eauto.
Qed.

(** X24.  The validation of the creation form lets a submission
    through exactly when no entry is a file and the submission passes
    the first three checks of [createPoll] (a question that is not
    blank, two options at least, no option twice); [createPoll] can then
    refuse the input for one reason only, more than twenty options. *)
Theorem validateForm_agrees_with_createPoll (formData : FormData) :
  (validateForm formData = Returns None <->
   text_only formData /\
   exists question,
     fd_question formData = Some (FString question) /\
     blank question = false /\
     (2 <= length (sanitized_options formData))%nat /\
     NoDup (sanitized_options formData)) /\
  (validateForm formData = Returns None ->
   create_input_ok formData = negb (20 <? length (sanitized_options formData))%nat).
Proof.
  assert (Hiff : validateForm formData = Returns None <->
            text_only formData /\
            exists question,
              fd_question formData = Some (FString question) /\
              blank question = false /\
              (2 <= length (sanitized_options formData))%nat /\
              NoDup (sanitized_options formData)).
  { unfold validateForm. split.
    - destruct (fd_question formData) as [[question |] |]; try discriminate.
      destruct (blank question) eqn:Hblank; [discriminate |].
      destruct (validOptions (fd_options formData)) as [valid |] eqn:Hvalid;
        [| discriminate].
      destruct (validOptions_sanitized formData valid Hvalid) as [Htext Hmap].
      destruct (length valid <? 2)%nat eqn:H2; [discriminate |].
      destruct (set_size (map trim valid) =? length valid)%nat eqn:Hset;
        [| discriminate].
      intros _. split; [exact Htext |]. exists question.
      apply Nat.ltb_ge in H2. apply Nat.eqb_eq in Hset.
      rewrite <- Hmap, length_map.
      split; [reflexivity |]. split; [exact Hblank |]. split; [exact H2 |].
      apply set_size_NoDup. rewrite length_map. exact Hset.
    - intros (Htext & question & -> & -> & H2 & Hnd).
      destruct (validOptions_text_only formData Htext) as [valid Hvalid].
      rewrite Hvalid.
      destruct (validOptions_sanitized formData valid Hvalid) as [_ Hmap].
      rewrite <- Hmap, length_map in H2. rewrite <- Hmap in Hnd.
      apply set_size_NoDup in Hnd. rewrite length_map in Hnd.
      apply Nat.ltb_ge in H2. rewrite H2, Hnd, Nat.eqb_refl. reflexivity. }
  split; [exact Hiff |].
  intros H. apply Hiff in H as (_ & question & Hq & Hblank & H2 & Hnd).
  unfold create_input_ok. rewrite Hq, Hblank.
  apply set_size_NoDup in Hnd. apply Nat.ltb_ge in H2.
  rewrite H2, Hnd, Nat.eqb_refl. reflexivity.
Qed.

Lemma validateForm_agrees_with_createPoll_witness :
  create_input_ok (Sample.form "Best letter?" Sample.letters) =
  negb (20 <? length (sanitized_options (Sample.form "Best letter?" Sample.letters)))%nat.
Proof.
  apply (proj2 (validateForm_agrees_with_createPoll
                  (Sample.form "Best letter?" Sample.letters))).
  vm_compute. reflexivity.
Defined.

End Handlers.

Module Patterns.
Import Js Db PollActions Props Terms Client UuidShape Steps.

Lemma length_append (a b : string) :
  String.length (a ++ b) = (String.length a + String.length b)%nat.
Proof.
  induction a as [| c a IH]; [reflexivity |].
  rewrite append_cons. cbn [String.length]. rewrite IH. reflexivity.
Qed.

(** X25.  The pattern for poll ids accepts exactly the strings of the
    canonical shape, five groups of 8, 4, 4, 4 and 12 hexadecimal
    digits with dashes between; a string it accepts has 36
    characters. *)
Theorem uuid_pattern_is_the_canonical_shape (s : string) :
  (uuidRegex_test s = true <-> canonical_uuid s) /\
  (uuidRegex_test s = true -> String.length s = 36%nat).
Proof.
  split; [apply uuidRegex_test_canonical |].
  intros H. apply uuidRegex_test_canonical in H
    as (a & b & c & d & e & -> & La & Lb & Lc & Ld & Le & _).
  rewrite !length_append, La, Lb, Lc, Ld, Le. reflexivity.
Qed.

Lemma uuid_pattern_is_the_canonical_shape_witness :
  String.length Sample.poll_id = 36%nat.
Proof.
  apply (proj2 (uuid_pattern_is_the_canonical_shape Sample.poll_id)).
  vm_compute. reflexivity.
Defined.

(** X26.  With an id whose sanitised form has not the canonical shape,
    [deletePoll] and [submitVote] are refused and reach neither the
    identity service nor a table: the world, journal included, is what
    it was. *)
Theorem malformed_id_reaches_no_service
  (env : Env) (id : string) (optionIndex : value) (w : World) :
  ~ canonical_uuid (trim id) ->
  (exists e, fst (deletePoll env id w) = Failure e) /\
  snd (deletePoll env id w) = w /\
  (exists e, fst (submitVote env id optionIndex w) = Failure e) /\
  snd (submitVote env id optionIndex w) = w.
Proof.
  intros Hshape.
  destruct (submitVote_requires_canonical_id env id optionIndex w Hshape)
    as (Hw & e & He & _).
  destruct (deletePoll_requires_canonical_id env id w Hshape) as [Hd | Hd];
    rewrite Hd; cbn [fst snd]; eauto 10.
Qed.

Lemma malformed_id_reaches_no_service_witness :
  snd (deletePoll (Sample.env_of (Some "bob"))
         "123e4567-e89b-12d3-a456-42661417400" Sample.world) = Sample.world.
Proof.
  apply (malformed_id_reaches_no_service (Sample.env_of (Some "bob"))
           "123e4567-e89b-12d3-a456-42661417400" (VNumber (of_nat 0)) Sample.world).
  intros H. apply uuidRegex_test_canonical in H. vm_compute in H. discriminate.
Defined.

Lemma is_at_eq (c : ascii) : is_at c = true -> c = "@"%char.
Proof.
  unfold is_at. intros H. apply Nat.eqb_eq in H.
  rewrite <- (ascii_nat_embedding c), H. reflexivity.
Qed.

Lemma is_dot_eq (c : ascii) : is_dot c = true -> c = "."%char.
Proof.
  unfold is_dot. intros H. apply Nat.eqb_eq in H.
  rewrite <- (ascii_nat_embedding c), H. reflexivity.
Qed.

Lemma plain_not_at (c : ascii) : plain c = true -> is_at c = false.
Proof.
  unfold plain. intros H. apply negb_true_iff, orb_false_iff in H as [_ H]. exact H.
Qed.

Lemma all_plain_cons (c : ascii) (s : string) :
  all_plain (String c s) = plain c && all_plain s.
Proof. reflexivity. Qed.

Lemma all_plain_append (a b : string) :
  all_plain (a ++ b) = all_plain a && all_plain b.
Proof.
  induction a as [| c a IH]; [reflexivity |].
  rewrite append_cons, !all_plain_cons, IH, andb_assoc. reflexivity.
Qed.

Lemma all_plain_Forall (s : string) :
  all_plain s = true <-> Forall (fun c => plain c = true) (list_ascii_of_string s).
Proof.
  induction s as [| c s IH]; cbn [all_plain list_ascii_of_string].
  - split; [constructor | reflexivity].
  - rewrite andb_true_iff, IH, Forall_cons. reflexivity.
Qed.

Lemma plain_text_all_plain (s : string) :
  plain_text s <-> s <> "" /\ all_plain s = true.
Proof. unfold plain_text. rewrite all_plain_Forall. reflexivity. Qed.

Lemma split_at_sound (s a r : string) : split_at s = Some (a, r) -> s = a ++ "@" ++ r.
Proof.
  revert a. induction s as [| c s IH]; intros a; cbn [split_at]; [discriminate |].
  destruct (is_at c) eqn:Hc.
  - intros H. injection H as <- <-. apply is_at_eq in Hc. subst c. reflexivity.
  - destruct (split_at s) as [[a' r'] |]; [| discriminate].
    intros H. injection H as <- <-. rewrite append_cons, <- (IH a' eq_refl). reflexivity.
Qed.

Lemma split_at_plain (a r : string) :
  all_plain a = true -> split_at (a ++ "@" ++ r) = Some (a, r).
Proof.
  induction a as [| c a IH]; intros H; [reflexivity |].
  rewrite all_plain_cons in H. apply andb_true_iff in H as [Hc Ha].
  rewrite append_cons. cbn [split_at]. rewrite (plain_not_at c Hc), (IH Ha). reflexivity.
Qed.

Lemma dot_before_end_sound (s : string) :
  dot_before_end s = true ->
  exists before c after, s = before ++ "." ++ String c after.
Proof.
  induction s as [| c s IH]; cbn [dot_before_end]; [discriminate |].
  destruct s as [| c' s']; [discriminate |].
  destruct (is_dot c) eqn:Hc; cbn [orb].
  - intros _. apply is_dot_eq in Hc. subst c. exists "", c', s'. reflexivity.
  - intros H. destruct (IH H) as (before & d & after & E).
    exists (String c before), d, after. rewrite append_cons, <- E. reflexivity.
Qed.

Lemma dot_before_end_complete (before after : string) (c : ascii) :
  dot_before_end (before ++ "." ++ String c after) = true.
Proof.
  induction before as [| d before IH]; [reflexivity |].
  rewrite append_cons. cbn [dot_before_end].
  destruct (before ++ "." ++ String c after) eqn:E.
  - destruct before; discriminate.
  - rewrite IH. apply orb_true_r.
Qed.

(** X27.  The e-mail pattern of the login page accepts exactly the
    strings [local@domain.tld] whose three parts are not empty and hold
    neither whitespace nor [@]. *)
Theorem email_pattern_is_local_at_domain (s : string) :
  emailRegex_test s = true <-> email_shape s.
Proof.
  unfold emailRegex_test, email_shape. split.
  - destruct (split_at s) as [[[| c a] [| d b]] |] eqn:Hsplit; try discriminate.
    intros H. apply andb_true_iff in H as [H Hdot].
    apply andb_true_iff in H as [Hlocal Hdomain].
    apply split_at_sound in Hsplit.
    destruct (dot_before_end_sound b Hdot) as (before & e & after & ->).
    rewrite all_plain_cons, all_plain_append, all_plain_append in Hdomain.
    apply andb_true_iff in Hdomain as [Hd Hrest].
    apply andb_true_iff in Hrest as [Hbefore Hrest].
    apply andb_true_iff in Hrest as [_ Hafter].
    exists (String c a), (String d before), (String e after).
    split; [exact Hsplit |].
    split; [apply plain_text_all_plain; split; [discriminate | exact Hlocal] |].
    split; apply plain_text_all_plain; (split; [discriminate |]); [| exact Hafter].
    rewrite all_plain_cons, Hd, Hbefore. reflexivity.
  - intros (a & b & c & -> & Ha & Hb & Hc).
    apply plain_text_all_plain in Ha as [Ha0 Ha], Hb as [Hb0 Hb], Hc as [Hc0 Hc].
    rewrite (split_at_plain a _ Ha).
    destruct a as [| a0 a]; [contradiction |].
    destruct b as [| b0 b]; [contradiction |].
    destruct c as [| c0 c]; [contradiction |].
    rewrite append_cons, Ha.
    rewrite all_plain_cons in Hb. apply andb_true_iff in Hb as [Hb0' Hb].
    rewrite all_plain_cons, all_plain_append, all_plain_append, Hb0', Hb, Hc.
    rewrite dot_before_end_complete. reflexivity.
Qed.

(** X28.  When [submitVote] records a vote, the row holds the
    sanitised id, which has the canonical shape and is the key of a
    poll, the identity the identity service gave for the caller, the
    index as sent, which is a number, and the current time; table
    [polls] is not touched. *)
Theorem recorded_vote_is_the_callers
  (env : Env) (pollId : string) (optionIndex : value) (w : World) :
  votes (snd (submitVote env pollId optionIndex w)) <> votes w ->
  exists user index,
    auth env = AuthUser user /\
    optionIndex = VNumber index /\
    votes (snd (submitVote env pollId optionIndex w)) =
      (votes w ++ [{| vote_poll_id := trim pollId; vote_user_id := user;
                      vote_option_index := index; vote_created_at := now env |}])%list /\
    canonical_uuid (trim pollId) /\
    is_Some (polls w !! trim pollId) /\
    polls (snd (submitVote env pollId optionIndex w)) = polls w.
Proof.
  run_submitVote; intros Hchanged; try (exfalso; apply Hchanged; reflexivity);
    destruct optionIndex; try discriminate;
    match goal with H : as_number _ = Some _ |- _ => cbn in H; injection H as -> end;
    match goal with H : negb (uuidRegex_test _) = false |- _ =>
      apply negb_false_iff, uuidRegex_test_canonical in H end;
    do 2 eexists; cbn [polls votes set_votes record];
    (split; [eassumption || reflexivity |]); (split; [reflexivity |]);
    (split; [reflexivity |]); (split; [assumption |]); (split; [eauto | reflexivity]).
Qed.

Lemma recorded_vote_is_the_callers_witness :
  exists user index,
    auth (Sample.env_of (Some "alice")) = AuthUser user /\
    VNumber (of_nat 1) = VNumber index.
Proof.
  destruct (recorded_vote_is_the_callers (Sample.env_of (Some "alice")) Sample.poll_id
              (VNumber (of_nat 1)) Sample.world)
    as (user & index & Hauth & Hindex & _).
  - vm_compute. discriminate.
  - exists user, index. split; assumption.
Defined.

End Patterns.

Module Tally.
Import Js Db PollActions Terms.

Lemma same_key_sym (a b : number) : same_key a b = same_key b a.
Proof.
  destruct a as [x | | |], b as [y | | |]; try reflexivity. cbn [same_key].
  destruct (Qeq_bool x y) eqn:E1, (Qeq_bool y x) eqn:E2; try reflexivity.
  - apply Qeq_bool_iff, Qeq_sym, Qeq_bool_iff in E1. congruence.
  - apply Qeq_bool_iff, Qeq_sym, Qeq_bool_iff in E2. congruence.
Qed.

Lemma same_key_trans (a b c : number) :
  same_key a b = true -> same_key b c = true -> same_key a c = true.
Proof.
  destruct a as [x | | |], b as [y | | |], c as [z | | |]; try discriminate; try reflexivity.
  cbn [same_key]. rewrite !Qeq_bool_iff. apply Qeq_trans.
Qed.

(** Keys that are the same are the same as the same keys. *)
Lemma same_key_congr (a b c : number) :
  same_key a b = true -> same_key a c = same_key b c.
Proof.
  intros Hab. destruct (same_key a c) eqn:Hac, (same_key b c) eqn:Hbc; try reflexivity.
  - rewrite same_key_sym in Hab.
    rewrite (same_key_trans b a c Hab Hac) in Hbc. discriminate.
  - rewrite (same_key_trans a b c Hab Hbc) in Hac. discriminate.
Qed.

Lemma count_of_cons (k key : number) (c : nat) (voteCounts : list (number * nat)) :
  count_of k ((key, c) :: voteCounts) =
  if same_key key k then c else count_of k voteCounts.
Proof. unfold count_of. cbn [List.find fst]. destruct (same_key key k); reflexivity. Qed.

Lemma count_of_bump (k idx : number) (voteCounts : list (number * nat)) :
  count_of k (bump idx voteCounts) =
  (count_of k voteCounts + if same_key idx k then 1 else 0)%nat.
Proof.
  induction voteCounts as [| [key c] rest IH].
  - cbn [bump]. rewrite count_of_cons. destruct (same_key idx k); reflexivity.
  - cbn [bump]. destruct (same_key key idx) eqn:Hkey.
    + rewrite !count_of_cons, <- (same_key_congr key idx k Hkey).
      destruct (same_key key k); lia.
    + rewrite !count_of_cons, IH.
      destruct (same_key key k) eqn:Hk; [| reflexivity].
      destruct (same_key idx k) eqn:Hidx; [| lia].
      rewrite same_key_sym in Hidx.
      rewrite (same_key_trans key k idx Hk Hidx) in Hkey. discriminate.
Qed.

Lemma sum_cons (key : number) (c : nat) (voteCounts : list (number * nat)) :
  list_sum (map snd ((key, c) :: voteCounts)) = (c + list_sum (map snd voteCounts))%nat.
Proof. reflexivity. Qed.

Lemma sum_bump (idx : number) (voteCounts : list (number * nat)) :
  list_sum (map snd (bump idx voteCounts)) = S (list_sum (map snd voteCounts)).
Proof.
  induction voteCounts as [| [key c] rest IH]; [reflexivity |].
  cbn [bump]. destruct (same_key key idx); rewrite !sum_cons; [| rewrite IH]; lia.
Qed.

(** X29.  The counts [submitVote] builds from the rows it has fetched:
    the count under an index is the number of rows with that index, and
    the counts add up to the number of rows. *)
Theorem count_votes_counts_every_vote (results : list number) (k : number) :
  count_of k (count_votes results) =
    length (List.filter (fun idx => same_key idx k) results) /\
  list_sum (map snd (count_votes results)) = length results.
Proof.
  unfold count_votes.
  assert (H : forall voteCounts,
    count_of k (fold_left (fun voteCounts idx => bump idx voteCounts) results voteCounts) =
      (count_of k voteCounts + length (List.filter (fun idx => same_key idx k) results))%nat /\
    list_sum (map snd
      (fold_left (fun voteCounts idx => bump idx voteCounts) results voteCounts)) =
      (list_sum (map snd voteCounts) + length results)%nat).
  { induction results as [| idx rest IH]; intros voteCounts; cbn [fold_left List.filter length].
    - split; lia.
    - destruct (IH (bump idx voteCounts)) as [Hcount Hsum].
      rewrite Hcount, Hsum, count_of_bump, sum_bump.
      destruct (same_key idx k); cbn [length]; split; lia. }
  destruct (H []) as [Hcount Hsum]. rewrite Hcount, Hsum. split; reflexivity.
Qed.

End Tally.
